(** * iperf_exporter: the sampling loop of [main.go] and its measurement call

    A shallow embedding of [src/main.go]: the report types [IPerf3Summary]
    and [IPerf3Result], the measurement call [ExecIPerf3], the five gauge
    vectors, the sampler goroutine and [main].  The Go libraries the program
    calls ([os/exec], [encoding/json], the Prometheus gauge vectors) are
    modelled as far as the program observes them. *)

From Stdlib Require Import ZArith NArith List String Ascii Bool Lia.
From Stdlib Require Import SpecFloat.
From stdpp Require Import gmap strings pretty sorting.
Import ListNotations.

Set Warnings "-register-all,-abstract-large-number".
Local Open Scope Z_scope.

(** ** Floating point: Go's [float64] and [float32]

    Values are IEEE-754 binary floats as specified by [SpecFloat]:
    [float64] has precision 53 and [emax] 1024, [float32] precision 24 and
    [emax] 128. *)

Module Float.

Abbreviation float64 := spec_float.
Abbreviation float32 := spec_float.

Definition prec64 : Z := 53.
Definition emax64 : Z := 1024.
Definition prec32 : Z := 24.
Definition emax32 : Z := 128.

(** The zero value of a Go float variable. *)
Definition zero : spec_float := S754_zero false.

(** [float64(n)] for an integer [n]. *)
Definition of_Z (n : Z) : float64 := binary_normalize prec64 emax64 n 0 false.

Definition one : float64 := Eval vm_compute in of_Z 1.

(** [x + y] on [float64]. *)
Definition add (x y : float64) : float64 := SFadd prec64 emax64 x y.

(** The decimal [(-1)^neg * m * 10^e10] rounded to nearest, ties to even, in
    the format ([prec], [emax]).  A negative exponent divides: the quotient
    is computed with more than [prec] bits and the remainder gives the
    position of the discarded part. *)
Definition round_decimal (prec emax : Z) (neg : bool) (m : N) (e10 : Z) : spec_float :=
  match m with
  | N0 => S754_zero neg
  | Npos p =>
      if 0 <=? e10 then
        binary_round prec emax neg (p * Z.to_pos (10 ^ e10))%positive 0
      else
        let d := 10 ^ (- e10) in
        let s := Zdigits2 d + prec + 2 in
        let '(q, r) := Z.div_eucl (Z.shiftl (Zpos p) s) d in
        binary_round_aux prec emax neg q (- s) (new_location d r)
  end.

Definition is_finite (x : spec_float) : bool :=
  match x with
  | S754_zero _ | S754_finite _ _ _ => true
  | _ => false
  end.

(** [strconv.ParseFloat] on a number whose syntax has already been checked:
    the correctly rounded value, or an error ([None]) when it is out of the
    range of the format. *)
Definition ParseFloat (prec emax : Z) (neg : bool) (m : N) (e10 : Z) : option spec_float :=
  let x := round_decimal prec emax neg m e10 in
  if is_finite x then Some x else None.

End Float.

Export Float.

(** ** JSON text, as [encoding/json] reads it

    [json.Unmarshal] first checks that the whole input is one well-formed
    JSON value and only then decodes it, so the model reads the text into a
    tree ([parse]) and decodes the tree afterwards. *)

Module JSON.

(** Bytes are handled by their codes. *)
Fixpoint bytes_of_string (s : string) : list N :=
  match s with
  | EmptyString => []
  | String c r => N_of_ascii c :: bytes_of_string r
  end.

Fixpoint string_of_bytes (l : list N) : string :=
  match l with
  | [] => EmptyString
  | b :: r => String (ascii_of_N b) (string_of_bytes r)
  end.

(** A number literal [-?int(.frac)?([eE][+-]?exp)?]: its sign, the digits of
    [int] and [frac] read as one integer, the decimal exponent that places
    the point, and whether the literal is a plain integer. *)
Record number := {
  num_neg : bool;
  num_mant : N;
  num_exp10 : Z;
  num_integral : bool
}.

Inductive json :=
| JNull
| JBool (b : bool)
| JNumber (n : number)
| JString (s : string)
| JArray (l : list json)
| JObject (ms : list (string * json)).

Inductive token :=
| TLBrace | TRBrace | TLBracket | TRBracket | TColon | TComma
| TString (s : string)
| TNumber (n : number)
| TTrue | TFalse | TNull.

(** *** Numbers *)

Definition is_digit (b : N) : bool := (48 <=? b)%N && (b <=? 57)%N.

Fixpoint span_digits (l : list N) : list N * list N :=
  match l with
  | b :: r =>
      if is_digit b then let '(ds, rest) := span_digits r in (b :: ds, rest)
      else ([], l)
  | [] => ([], [])
  end.

Definition digits_value (ds : list N) : N :=
  fold_left (fun acc d => (acc * 10 + (d - 48))%N) ds 0%N.

Definition parse_number (w : list N) : option number :=
  let '(neg, w1) := match w with 45%N :: r => (true, r) | _ => (false, w) end in
  let '(ints, w2) := span_digits w1 in
  let int_ok :=
    match ints with
    | [] => false
    | [_] => true
    | d :: _ => negb (d =? 48)%N
    end in
  let '(fracs, has_frac, frac_ok, w3) :=
    match w2 with
    | 46%N :: r =>
        let '(fs, rest) := span_digits r in
        (fs, true, negb (Nat.eqb (length fs) 0), rest)
    | _ => ([], false, true, w2)
    end in
  let '(ex, has_exp, exp_ok, w4) :=
    match w3 with
    | c :: r =>
        if (c =? 101)%N || (c =? 69)%N then
          let '(eneg, r1) :=
            match r with
            | 45%N :: r' => (true, r')
            | 43%N :: r' => (false, r')
            | _ => (false, r)
            end in
          let '(es, rest) := span_digits r1 in
          let v := Z.of_N (digits_value es) in
          (if eneg then - v else v, true, negb (Nat.eqb (length es) 0), rest)
        else (0, false, true, w3)
    | [] => (0, false, true, w3)
    end in
  match w4 with
  | [] =>
      if int_ok && frac_ok && exp_ok then
        Some {| num_neg := neg;
                num_mant := digits_value (ints ++ fracs);
                num_exp10 := ex - Z.of_nat (length fracs);
                num_integral := negb has_frac && negb has_exp |}
      else None
  | _ => None
  end.

(** *** Strings

    [unquote] turns the bytes between the two quotes into the string they
    denote: escapes are replaced, a control character or a bad escape is a
    syntax error, and bytes that are not well-formed UTF-8 become U+FFFD. *)

Definition hex_value (b : N) : option N :=
  if is_digit b then Some (b - 48)%N
  else if (97 <=? b)%N && (b <=? 102)%N then Some (b - 87)%N
  else if (65 <=? b)%N && (b <=? 70)%N then Some (b - 55)%N
  else None.

Definition getu4 (a b c d : N) : option N :=
  match hex_value a, hex_value b, hex_value c, hex_value d with
  | Some x, Some y, Some z, Some w => Some (x * 4096 + y * 256 + z * 16 + w)%N
  | _, _, _, _ => None
  end.

(** [utf8.EncodeRune] for a code point that is not a surrogate. *)
Definition encode_rune (r : N) : list N :=
  if (r <? 128)%N then [r]
  else if (r <? 2048)%N then [192 + r / 64; 128 + r mod 64]%N
  else if (r <? 65536)%N then
    [224 + r / 4096; 128 + (r / 64) mod 64; 128 + r mod 64]%N
  else
    [240 + r / 262144; 128 + (r / 4096) mod 64; 128 + (r / 64) mod 64;
     128 + r mod 64]%N.

Definition replacement_char : list N := [239; 191; 189]%N.

Definition is_high_surrogate (r : N) : bool := (55296 <=? r)%N && (r <? 56320)%N.
Definition is_low_surrogate (r : N) : bool := (56320 <=? r)%N && (r <? 57344)%N.

Definition is_cont (b : N) : bool := (128 <=? b)%N && (b <=? 191)%N.
Definition in_range (lo hi b : N) : bool := (lo <=? b)%N && (b <=? hi)%N.

(** The length of the well-formed UTF-8 sequence that starts [l], if any. *)
Definition utf8_len (l : list N) : option nat :=
  match l with
  | b0 :: r =>
      if in_range 194 223 b0 then
        match r with
        | b1 :: _ => if is_cont b1 then Some 2%nat else None
        | _ => None
        end
      else if in_range 224 239 b0 then
        match r with
        | b1 :: b2 :: _ =>
            let lo := if (b0 =? 224)%N then 160%N else 128%N in
            let hi := if (b0 =? 237)%N then 159%N else 191%N in
            if in_range lo hi b1 && is_cont b2 then Some 3%nat else None
        | _ => None
        end
      else if in_range 240 244 b0 then
        match r with
        | b1 :: b2 :: b3 :: _ =>
            let lo := if (b0 =? 240)%N then 144%N else 128%N in
            let hi := if (b0 =? 244)%N then 143%N else 191%N in
            if in_range lo hi b1 && is_cont b2 && is_cont b3 then Some 4%nat
            else None
        | _ => None
        end
      else None
  | [] => None
  end.

Definition simple_escape (b : N) : option N :=
  if (b =? 34)%N then Some 34%N          (* quotation mark *)
  else if (b =? 92)%N then Some 92%N     (* backslash *)
  else if (b =? 47)%N then Some 47%N     (* slash *)
  else if (b =? 98)%N then Some 8%N      (* b *)
  else if (b =? 102)%N then Some 12%N    (* f *)
  else if (b =? 110)%N then Some 10%N    (* n *)
  else if (b =? 114)%N then Some 13%N    (* r *)
  else if (b =? 116)%N then Some 9%N     (* t *)
  else None.

Fixpoint unquote (l : list N) : option (list N) :=
  match l with
  | [] => Some []
  | b :: r =>
      if (b <? 32)%N then None
      else if (b =? 92)%N then
        match r with
        | e :: r1 =>
            if (e =? 117)%N then
              match r1 with
              | h1 :: h2 :: h3 :: h4 :: r2 =>
                  match getu4 h1 h2 h3 h4 with
                  | None => None
                  | Some u =>
                      if is_high_surrogate u || is_low_surrogate u then
                        match r2 with
                        | 92%N :: 117%N :: g1 :: g2 :: g3 :: g4 :: r3 =>
                            match getu4 g1 g2 g3 g4 with
                            | Some v =>
                                if is_high_surrogate u && is_low_surrogate v then
                                  option_map
                                    (app (encode_rune
                                            (65536 + (u - 55296) * 1024 + (v - 56320))%N))
                                    (unquote r3)
                                else option_map (app replacement_char) (unquote r2)
                            | None => option_map (app replacement_char) (unquote r2)
                            end
                        | _ => option_map (app replacement_char) (unquote r2)
                        end
                      else option_map (app (encode_rune u)) (unquote r2)
                  end
              | _ => None
              end
            else
              match simple_escape e with
              | Some c => option_map (cons c) (unquote r1)
              | None => None
              end
        | [] => None
        end
      else if (b <? 128)%N then option_map (cons b) (unquote r)
      else
        match utf8_len l, r with
        | Some 2%nat, b1 :: r1 =>
            option_map (fun t => b :: b1 :: t) (unquote r1)
        | Some 3%nat, b1 :: b2 :: r2 =>
            option_map (fun t => b :: b1 :: b2 :: t) (unquote r2)
        | Some 4%nat, b1 :: b2 :: b3 :: r3 =>
            option_map (fun t => b :: b1 :: b2 :: b3 :: t) (unquote r3)
        | _, _ => option_map (app replacement_char) (unquote r)
        end
  end.

(** *** Tokens

    The text is cut into tokens in one pass.  A string runs to its closing
    quote; a literal or a number is the longest run of the characters such
    words are made of, checked when the run ends. *)

Inductive lexmode :=
| LIdle
| LString (acc : list N) (esc : bool)
| LWord (acc : list N).

Definition is_space (b : N) : bool :=
  (b =? 32)%N || (b =? 9)%N || (b =? 13)%N || (b =? 10)%N.

Definition is_word_char (b : N) : bool :=
  is_digit b || in_range 97 122 b || (b =? 69)%N
  || (b =? 45)%N || (b =? 43)%N || (b =? 46)%N.

Definition punctuation (b : N) : option token :=
  if (b =? 123)%N then Some TLBrace
  else if (b =? 125)%N then Some TRBrace
  else if (b =? 91)%N then Some TLBracket
  else if (b =? 93)%N then Some TRBracket
  else if (b =? 58)%N then Some TColon
  else if (b =? 44)%N then Some TComma
  else None.

Definition word_token (w : list N) : option token :=
  let s := string_of_bytes w in
  if String.eqb s "true" then Some TTrue
  else if String.eqb s "false" then Some TFalse
  else if String.eqb s "null" then Some TNull
  else option_map TNumber (parse_number w).

Definition lex_idle (toks : list token) (b : N) : option (lexmode * list token) :=
  if is_space b then Some (LIdle, toks)
  else if (b =? 34)%N then Some (LString [] false, toks)
  else if is_word_char b then Some (LWord [b], toks)
  else option_map (fun t => (LIdle, t :: toks)) (punctuation b).

Definition lex_step (st : lexmode * list token) (b : N)
  : option (lexmode * list token) :=
  let '(mode, toks) := st in
  match mode with
  | LIdle => lex_idle toks b
  | LString acc true => Some (LString (b :: acc) false, toks)
  | LString acc false =>
      if (b =? 34)%N then
        option_map (fun s => (LIdle, TString (string_of_bytes s) :: toks))
                   (unquote (rev acc))
      else Some (LString (b :: acc) (b =? 92)%N, toks)
  | LWord acc =>
      if is_word_char b then Some (LWord (b :: acc), toks)
      else
        match word_token (rev acc) with
        | Some t => lex_idle (t :: toks) b
        | None => None
        end
  end.

Fixpoint lex_from (st : lexmode * list token) (l : list N) : option (list token) :=
  match l with
  | b :: r =>
      match lex_step st b with
      | Some st' => lex_from st' r
      | None => None
      end
  | [] =>
      match st with
      | (LIdle, toks) => Some (rev toks)
      | (LWord acc, toks) =>
          option_map (fun t => rev (t :: toks)) (word_token (rev acc))
      | (LString _ _, _) => None
      end
  end.

Definition lex (l : list N) : option (list token) := lex_from (LIdle, []) l.

(** *** Values

    The tokens are read with an explicit stack of the arrays and objects
    that are still open, as the scanner of [encoding/json] keeps one; it
    refuses to open more than [maxNestingDepth] of them. *)

Definition maxNestingDepth : nat := 10000.

Inductive frame :=
| FArray (acc : list json)
| FObject (acc : list (string * json)) (key : string).

Inductive pstate :=
| PValue (stk : list frame)
| PArrayStart (stk : list frame)
| PObjectStart (stk : list frame)
| PKey (acc : list (string * json)) (stk : list frame)
| PColon (acc : list (string * json)) (key : string) (stk : list frame)
| PAfterElem (acc : list json) (stk : list frame)
| PAfterMember (acc : list (string * json)) (stk : list frame)
| PDone (v : json).

(** A complete value goes to whatever is waiting for it. *)
Definition deliver (v : json) (stk : list frame) : pstate :=
  match stk with
  | [] => PDone v
  | FArray acc :: stk' => PAfterElem (v :: acc) stk'
  | FObject acc k :: stk' => PAfterMember ((k, v) :: acc) stk'
  end.

Definition parse_value (stk : list frame) (t : token) : option pstate :=
  match t with
  | TNull => Some (deliver JNull stk)
  | TTrue => Some (deliver (JBool true) stk)
  | TFalse => Some (deliver (JBool false) stk)
  | TNumber n => Some (deliver (JNumber n) stk)
  | TString s => Some (deliver (JString s) stk)
  | TLBracket =>
      if (length stk <? maxNestingDepth)%nat then Some (PArrayStart stk) else None
  | TLBrace =>
      if (length stk <? maxNestingDepth)%nat then Some (PObjectStart stk) else None
  | _ => None
  end.

Definition parse_step (st : pstate) (t : token) : option pstate :=
  match st, t with
  | PValue stk, _ => parse_value stk t
  | PArrayStart stk, TRBracket => Some (deliver (JArray []) stk)
  | PArrayStart stk, _ => parse_value (FArray [] :: stk) t
  | PObjectStart stk, TRBrace => Some (deliver (JObject []) stk)
  | PObjectStart stk, TString k => Some (PColon [] k stk)
  | PKey acc stk, TString k => Some (PColon acc k stk)
  | PColon acc k stk, TColon => Some (PValue (FObject acc k :: stk))
  | PAfterElem acc stk, TComma => Some (PValue (FArray acc :: stk))
  | PAfterElem acc stk, TRBracket => Some (deliver (JArray (rev acc)) stk)
  | PAfterMember acc stk, TComma => Some (PKey acc stk)
  | PAfterMember acc stk, TRBrace => Some (deliver (JObject (rev acc)) stk)
  | _, _ => None
  end.

Fixpoint parse_from (st : pstate) (ts : list token) : option json :=
  match ts with
  | t :: r =>
      match parse_step st t with
      | Some st' => parse_from st' r
      | None => None
      end
  | [] => match st with PDone v => Some v | _ => None end
  end.

(** The JSON value a text denotes; [None] is a syntax error. *)
Definition parse (text : string) : option json :=
  match lex (bytes_of_string text) with
  | Some ts => parse_from (PValue []) ts
  | None => None
  end.

(** *** Field names

    A member of an object is stored in the struct field whose name equals
    its key when case is ignored.  Folding maps the letters to upper case;
    U+017F (long s) and U+212A (Kelvin sign) fold to S and K. *)
Fixpoint fold_bytes (l : list N) : list N :=
  match l with
  | 197%N :: 191%N :: r => 83%N :: fold_bytes r
  | 226%N :: 132%N :: 170%N :: r => 75%N :: fold_bytes r
  | b :: r => (if in_range 97 122 b then b - 32 else b)%N :: fold_bytes r
  | [] => []
  end.

Definition foldName (s : string) : string :=
  string_of_bytes (fold_bytes (bytes_of_string s)).

Definition key_is (field key : string) : bool :=
  String.eqb (foldName key) (foldName field).

(** Tool output is written here with apostrophes where the JSON text has
    quotation marks; [q] puts the quotation marks back. *)
Definition q (s : string) : string :=
  string_of_bytes (map (fun b => if (b =? 39)%N then 34%N else b) (bytes_of_string s)).

End JSON.

Export JSON.

Local Open Scope string_scope.
Local Open Scope Z_scope.

(** ** The report types of [main.go] *)

Module Summary.

(** [IPerf3Summary]; Go's [int] is taken as 64 bits wide. *)
Record IPerf3Summary := {
  Start : float32; End : float32; Seconds : float32;
  Bytes : Z;
  BitsPerSecond : float64;
  Retransmits : float64
}.

End Summary.

Export Summary.

(** The anonymous struct of the field [End] of [IPerf3Result]. *)
Record IPerf3End := {
  SumSent : IPerf3Summary;
  SumReceived : IPerf3Summary
}.

Record IPerf3Result := {
  Error : string; End : IPerf3End
}.

(** The zero values, as [&IPerf3Result{}] has them. *)
Definition IPerf3Summary_zero : IPerf3Summary :=
  {| Start := zero; Summary.End := zero; Seconds := zero; Bytes := 0;
     BitsPerSecond := zero; Retransmits := zero |}.

Definition IPerf3End_zero : IPerf3End :=
  {| SumSent := IPerf3Summary_zero; SumReceived := IPerf3Summary_zero |}.

Definition IPerf3Result_zero : IPerf3Result :=
  {| Error := ""; End := IPerf3End_zero |}.

(** ** Go errors

    The error values the program can hold, by their dynamic type. *)

(** [os.ProcessState] of a process that has been waited for. *)
Inductive ProcessState :=
| exited (code : Z)
| signaled (signal : string).

Inductive error :=
| exec_Error (msg : string)               (* the command could not be started *)
| exec_ExitError (state : ProcessState)   (* it ran and did not succeed *)
| errorString (s : string)                (* errors.New, fmt.Errorf *)
| json_SyntaxError
| json_UnmarshalTypeError.

Definition errors_New (s : string) : error := errorString s.

(** [fmt.Errorf(format, n)] for a format that ends in its only verb, [%d]. *)
Definition fmt_Errorf_d (text : string) (n : Z) : error :=
  errorString (text +:+ pretty n).

(** The method [String] of [ProcessState]. *)
Definition ProcessState_String (p : ProcessState) : string :=
  match p with
  | exited code => "exit status " +:+ pretty code
  | signaled sig => "signal: " +:+ sig
  end.

(** The method [ExitCode] of [ProcessState]: -1 for a nil receiver and for a process that
    a signal terminated. *)
Definition ExitCode (p : option ProcessState) : Z :=
  match p with
  | Some (exited code) => code
  | Some (signaled _) => -1
  | None => -1
  end.

(** [err.Error()].  The text of an error of [encoding/json] is composed
    inside that package and is not modelled. *)
Definition error_message (e : error) : option string :=
  match e with
  | exec_Error msg => Some msg
  | exec_ExitError st => Some (ProcessState_String st)
  | errorString s => Some s
  | json_SyntaxError | json_UnmarshalTypeError => None
  end.

(** ** [json.Unmarshal] into [*IPerf3Result]

    A [null] leaves the destination as it is; a value of another JSON type
    than the destination's is an [UnmarshalTypeError]; members whose key
    names no field are skipped.  A key may occur several times: each
    occurrence is stored in turn into the same destination. *)

Module Decode.

Definition decode_float (prec emax : Z) (v : json) (dst : spec_float)
  : option spec_float :=
  match v with
  | JNull => Some dst
  | JNumber n => ParseFloat prec emax (num_neg n) (num_mant n) (num_exp10 n)
  | _ => None
  end.

Definition decode_float64 := decode_float prec64 emax64.
Definition decode_float32 := decode_float prec32 emax32.

(** [strconv.ParseInt(s, 10, 64)] accepts a plain integer literal within
    the range of [int64]. *)
Definition decode_int (v : json) (dst : Z) : option Z :=
  match v with
  | JNull => Some dst
  | JNumber n =>
      let z := if num_neg n then - Z.of_N (num_mant n) else Z.of_N (num_mant n) in
      if num_integral n && (- 2 ^ 63 <=? z) && (z <? 2 ^ 63) then Some z else None
  | _ => None
  end.

Definition decode_string (v : json) (dst : string) : option string :=
  match v with
  | JNull => Some dst
  | JString s => Some s
  | _ => None
  end.

(** The members of an object are stored one after the other. *)
Fixpoint decode_members {A : Type} (field : string -> json -> A -> option A)
  (ms : list (string * json)) (dst : A) : option A :=
  match ms with
  | [] => Some dst
  | (k, v) :: r =>
      match field k v dst with
      | Some dst' => decode_members field r dst'
      | None => None
      end
  end.

Definition decode_struct {A : Type} (field : string -> json -> A -> option A)
  (v : json) (dst : A) : option A :=
  match v with
  | JNull => Some dst
  | JObject ms => decode_members field ms dst
  | _ => None
  end.

Definition Summary_field (k : string) (v : json) (d : IPerf3Summary)
  : option IPerf3Summary :=
  if key_is "start" k then
    x ← decode_float32 v (Start d);
    Some {| Start := x; Summary.End := Summary.End d; Seconds := Seconds d;
            Bytes := Bytes d; BitsPerSecond := BitsPerSecond d;
            Retransmits := Retransmits d |}
  else if key_is "end" k then
    x ← decode_float32 v (Summary.End d);
    Some {| Start := Start d; Summary.End := x; Seconds := Seconds d;
            Bytes := Bytes d; BitsPerSecond := BitsPerSecond d;
            Retransmits := Retransmits d |}
  else if key_is "seconds" k then
    x ← decode_float32 v (Seconds d);
    Some {| Start := Start d; Summary.End := Summary.End d; Seconds := x;
            Bytes := Bytes d; BitsPerSecond := BitsPerSecond d;
            Retransmits := Retransmits d |}
  else if key_is "bytes" k then
    x ← decode_int v (Bytes d);
    Some {| Start := Start d; Summary.End := Summary.End d; Seconds := Seconds d;
            Bytes := x; BitsPerSecond := BitsPerSecond d;
            Retransmits := Retransmits d |}
  else if key_is "bits_per_second" k then
    x ← decode_float64 v (BitsPerSecond d);
    Some {| Start := Start d; Summary.End := Summary.End d; Seconds := Seconds d;
            Bytes := Bytes d; BitsPerSecond := x;
            Retransmits := Retransmits d |}
  else if key_is "retransmits" k then
    x ← decode_float64 v (Retransmits d);
    Some {| Start := Start d; Summary.End := Summary.End d; Seconds := Seconds d;
            Bytes := Bytes d; BitsPerSecond := BitsPerSecond d;
            Retransmits := x |}
  else Some d.

Definition decode_Summary : json -> IPerf3Summary -> option IPerf3Summary :=
  decode_struct Summary_field.

Definition End_field (k : string) (v : json) (d : IPerf3End) : option IPerf3End :=
  if key_is "sum_sent" k then
    x ← decode_Summary v (SumSent d);
    Some {| SumSent := x; SumReceived := SumReceived d |}
  else if key_is "sum_received" k then
    x ← decode_Summary v (SumReceived d);
    Some {| SumSent := SumSent d; SumReceived := x |}
  else Some d.

Definition decode_End : json -> IPerf3End -> option IPerf3End :=
  decode_struct End_field.

Definition Result_field (k : string) (v : json) (d : IPerf3Result)
  : option IPerf3Result :=
  if key_is "error" k then
    x ← decode_string v (Error d);
    Some {| Error := x; End := End d |}
  else if key_is "end" k then
    x ← decode_End v (End d);
    Some {| Error := Error d; End := x |}
  else Some d.

Definition decode_Result : json -> IPerf3Result -> option IPerf3Result :=
  decode_struct Result_field.

End Decode.

Export Decode.

(** [json.Unmarshal(data, v)] for [v : *IPerf3Result]: the error, or the
    struct as it is after decoding.  When an error is returned the caller
    drops the struct, so its partly written state is not kept. *)
Definition json_Unmarshal (data : string) (v : IPerf3Result) : error + IPerf3Result :=
  match parse data with
  | None => inl json_SyntaxError
  | Some j =>
      match decode_Result j v with
      | Some r => inr r
      | None => inl json_UnmarshalTypeError
      end
  end.

(** ** [os/exec]

    What one execution of a command amounts to for the program: the command
    cannot be started, or it runs until it exits with a status or until a
    signal terminates it, having written [stdout]. *)

Inductive RunOutcome :=
| StartFails (reason : string)
| Exits (code : Z) (stdout : string)
| Signaled (signal : string) (stdout : string).

(** The system, as one call of [ExecIPerf3] meets it: what running a given
    argument vector turns out to do. *)
Definition System := list string -> RunOutcome.

Record Cmd := {
  Args : list string;
  Stdout : string;
  ProcessState_of : option ProcessState
}.

Definition exec_Command (name : string) (args : list string) : Cmd :=
  {| Args := name :: args; Stdout := ""; ProcessState_of := None |}.

(** [cmd.Run()]: starts the command and waits for it.  The error is nil
    exactly when the command ran and exited with status zero; a command that
    ran and did not succeed gives an [ExitError] that holds its state. *)
Definition Run (sys : System) (cmd : Cmd) : Cmd * option error :=
  match sys (Args cmd) with
  | StartFails reason => (cmd, Some (exec_Error reason))
  | Exits code out =>
      ({| Args := Args cmd; Stdout := out; ProcessState_of := Some (exited code) |},
       if code =? 0 then None else Some (exec_ExitError (exited code)))
  | Signaled sig out =>
      ({| Args := Args cmd; Stdout := out; ProcessState_of := Some (signaled sig) |},
       Some (exec_ExitError (signaled sig)))
  end.

(** ** [ExecIPerf3] *)

Definition iperf3_args (server port : string) : list string :=
  ["--json"; "-c"; server; "-p"; port; "--connect-timeout"; "1000"].

Definition ExecIPerf3 (sys : System) (server port : string)
  : option IPerf3Result * option error :=
  let cmd := exec_Command "iperf3" (iperf3_args server port) in
  let result := IPerf3Result_zero in
  let '(cmd, err) := Run sys cmd in
  match err with
  | Some e => (None, Some e)
  | None =>
      let exitCode := ExitCode (ProcessState_of cmd) in
      if negb (exitCode =? 0) then
        (None, Some (fmt_Errorf_d "exit code: " exitCode))
      else
        match json_Unmarshal (Stdout cmd) result with
        | inl e => (None, Some e)
        | inr result =>
            if negb (String.eqb (Error result) "") then
              (None, Some (errors_New (Error result)))
            else (Some result, None)
        end
  end.

(** ** The gauge vectors

    A [GaugeVec] with the one label [server] holds a [float64] for each
    label value it has been asked for. *)

(** [utf8.ValidString] *)
Fixpoint utf8_valid (l : list N) : bool :=
  match l with
  | [] => true
  | b :: r =>
      if (b <? 128)%N then utf8_valid r
      else
        match utf8_len l, r with
        | Some 2%nat, _ :: r1 => utf8_valid r1
        | Some 3%nat, _ :: _ :: r2 => utf8_valid r2
        | Some 4%nat, _ :: _ :: _ :: r3 => utf8_valid r3
        | _, _ => false
        end
  end.

Definition utf8_ValidString (s : string) : bool := utf8_valid (bytes_of_string s).

Module GaugeVec.

(** [vec.WithLabelValues(lv)] panics when the label value is not valid
    UTF-8; [None] stands for the panic. *)

(** [vec.WithLabelValues(lv).Set(v)] *)
Definition Set_ (lv : string) (v : float64) (vec : gmap string float64)
  : option (gmap string float64) :=
  if utf8_ValidString lv then Some (<[lv := v]> vec) else None.

(** [vec.WithLabelValues(lv).Add(d)]: a gauge that is not there yet is
    created at zero. *)
Definition Add (lv : string) (d : float64) (vec : gmap string float64)
  : option (gmap string float64) :=
  if utf8_ValidString lv
  then Some (<[lv := add (default zero (vec !! lv)) d]> vec)
  else None.

(** [vec.Reset()] deletes every gauge of the vector. *)
Definition Reset (vec : gmap string float64)
  : gmap string float64 := ∅.

End GaugeVec.

Record Metrics := {
  errorCount : gmap string float64;
  sentBitPerSec : gmap string float64;
  sentRetransmits : gmap string float64;
  receivedBitPerSec : gmap string float64;
  receivedRetransmits : gmap string float64
}.

(** The vectors as [main] creates them. *)
Definition Metrics_new : Metrics :=
  {| errorCount := ∅; sentBitPerSec := ∅; sentRetransmits := ∅;
     receivedBitPerSec := ∅; receivedRetransmits := ∅ |}.

(** ** The sampler goroutine *)

(** [time.Duration]: nanoseconds. *)
Abbreviation Duration := Z.
Definition Second : Duration := 1000000000.

(** What the goroutine has done so far: the state of the vectors and the
    lines it has logged, the latest first. *)
Record Sampler := {
  metrics : Metrics;
  logged : list (string * error)
}.

Definition Sampler_new : Sampler := {| metrics := Metrics_new; logged := [] |}.

(** One pass through the body of the [for] loop ends in a sleep, after
    which the loop goes round again, or in a panic. *)
Inductive Pass :=
| Sleep (s : Sampler) (d : Duration)
| Panic.

(** The error branch up to its sleep: the line is logged, then the error
    gauge is raised and the four vectors are reset.  [None] when
    [WithLabelValues] panics. *)
Definition on_error (server : string) (err : error) (s : Sampler) : option Sampler :=
  let m := metrics s in
  let lines := ("[ERROR] execute iperf3 with error:", err) :: logged s in
  ec ← GaugeVec.Add server one (errorCount m);
  Some {| logged := lines;
          metrics :=
            {| errorCount := ec;
               sentBitPerSec := GaugeVec.Reset (sentBitPerSec m);
               sentRetransmits := GaugeVec.Reset (sentRetransmits m);
               receivedBitPerSec := GaugeVec.Reset (receivedBitPerSec m);
               receivedRetransmits := GaugeVec.Reset (receivedRetransmits m) |} |}.

(** The four [Set] calls that follow a successful measurement.  [None]
    when [WithLabelValues] panics. *)
Definition on_result (server : string) (result : IPerf3Result) (s : Sampler)
  : option Sampler :=
  let m := metrics s in
  sb ← GaugeVec.Set_ server (BitsPerSecond (SumSent (End result))) (sentBitPerSec m);
  sr ← GaugeVec.Set_ server (Retransmits (SumSent (End result))) (sentRetransmits m);
  rb ← GaugeVec.Set_ server (BitsPerSecond (SumReceived (End result)))
         (receivedBitPerSec m);
  rr ← GaugeVec.Set_ server (Retransmits (SumReceived (End result)))
         (receivedRetransmits m);
  Some {| logged := logged s;
          metrics :=
            {| errorCount := errorCount m;
               sentBitPerSec := sb;
               sentRetransmits := sr;
               receivedBitPerSec := rb;
               receivedRetransmits := rr |} |}.

(** The loop body.  Reading a field through a nil [result] would panic,
    and so does a label value that [WithLabelValues] refuses. *)
Definition pass (server port : string) (execInterval : Duration)
  (sys : System) (s : Sampler) : Pass :=
  let '(result, err) := ExecIPerf3 sys server port in
  match err with
  | Some e =>
      match on_error server e s with
      | Some s' => Sleep s' (Second * 10)
      | None => Panic
      end
  | None =>
      match result with
      | Some r =>
          match on_result server r s with
          | Some s' => Sleep s' execInterval
          | None => Panic
          end
      | None => Panic
      end
  end.

(** The loop, run against the systems its successive passes meet; [None]
    when a pass panicked. *)
Fixpoint loop (server port : string) (execInterval : Duration)
  (syss : list System) (s : Sampler) : option Sampler :=
  match syss with
  | [] => Some s
  | sys :: rest =>
      match pass server port execInterval sys s with
      | Sleep s' _ => loop server port execInterval rest s'
      | Panic => None
      end
  end.

(** ** The exposition

    [prometheus.MustRegister] is given four of the five vectors; a scrape of
    [/metrics] lists, for each collector of the registry, the gauges it
    holds, the metric families in the order of their names. *)

Inductive Collector :=
| c_errorCount | c_sentBitPerSec | c_sentRetransmits
| c_receivedBitPerSec | c_receivedRetransmits.

(** [BuildFQName(Namespace, Subsystem, Name)] *)
Definition fqName (c : Collector) : string :=
  match c with
  | c_errorCount => "network_iperf3_error_count"
  | c_sentBitPerSec => "network_iperf3_sent_bits_per_second"
  | c_sentRetransmits => "network_iperf3_sent_retransmits"
  | c_receivedBitPerSec => "network_iperf3_received_bits_per_second"
  | c_receivedRetransmits => "network_iperf3_received_retransmits"
  end.

Definition vec_of (m : Metrics) (c : Collector) : gmap string float64 :=
  match c with
  | c_errorCount => errorCount m
  | c_sentBitPerSec => sentBitPerSec m
  | c_sentRetransmits => sentRetransmits m
  | c_receivedBitPerSec => receivedBitPerSec m
  | c_receivedRetransmits => receivedRetransmits m
  end.

(** The registry after the call of [MustRegister] in [main]. *)
Definition registered : list Collector :=
  [c_sentBitPerSec; c_sentRetransmits; c_receivedBitPerSec; c_receivedRetransmits].

(** One sample of a scrape: metric name, value of the label [server], value. *)
Definition Sample : Type := string * string * float64.

Definition collect (m : Metrics) (c : Collector) : list Sample :=
  map (fun kv => (fqName c, fst kv, snd kv)) (map_to_list (vec_of m c)).

(** The order of a page: metric families by name, and the gauges of a
    family by their label value. *)
Definition sample_leb (x y : Sample) : bool :=
  match String.compare (fst (fst x)) (fst (fst y)) with
  | Lt => true
  | Gt => false
  | Eq => String.leb (snd (fst x)) (snd (fst y))
  end.

Definition sample_le (x y : Sample) : Prop := Is_true (sample_leb x y).

(** What the handler of [/metrics] returns: the samples of all the
    collectors of the registry, in the order of a page.  [others] are the
    samples of the collectors that the default registry holds besides
    those given to [MustRegister] (the Go runtime, the process and the
    handler's own). *)
Definition Gather (others : list Sample) (registry : list Collector) (m : Metrics)
  : list Sample :=
  merge_sort sample_le (others ++ flat_map (collect m) registry).

(** The page of the running process. *)
Definition metrics_page (others : list Sample) (m : Metrics) : list Sample :=
  Gather others registered m.

(** The part of a page that comes from the vectors of [main]. *)
Definition scrape (m : Metrics) : list Sample := Gather [] registered m.

(** ** [main] *)

Record Flags := {
  server : string;
  port : string;
  interval : string;
  addr : string
}.

(** The defaults of the four flags. *)
Definition Flags_default : Flags :=
  {| server := "127.0.0.1"; port := "5201"; interval := "5m"; addr := ":9103" |}.

(** How a run of the process stands once the goroutine has made the passes
    it is given. *)
Inductive Process :=
| Fatal (text : string) (err : error)   (* log.Fatal: the process has exited *)
| Panicked                              (* a panic in the goroutine *)
| Serving (registry : list Collector) (s : Sampler).   (* still running *)

Section Main.

(** [time.ParseDuration] *)
Variable time_ParseDuration : string -> error + Duration.

(** [main] after [flag.Parse].  [listen] is the error with which
    [http.ListenAndServe] returns, [None] if it keeps serving; [syss] are
    the systems that the passes of the goroutine meet while the process is
    observed. *)
Definition main (flags : Flags) (listen : option error) (syss : list System)
  : Process :=
  match time_ParseDuration (interval flags) with
  | inl err => Fatal "[FATAL] invalid interval, " err
  | inr execInterval =>
      match loop (server flags) (port flags) execInterval syss Sampler_new with
      | None => Panicked
      | Some s =>
          match listen with
          | Some err => Fatal "[FATAL] start http server fatal:" err
          | None => Serving registered s
          end
      end
  end.

End Main.

(** ** Vocabulary of the specification *)

(** The sampler that the error branch leaves when the label is accepted. *)
Definition after_error (server : string) (err : error) (s : Sampler) : Sampler :=
  let m := metrics s in
  {| logged := ("[ERROR] execute iperf3 with error:", err) :: logged s;
     metrics :=
       {| errorCount :=
            <[server := add (default zero (errorCount m !! server)) one]> (errorCount m);
          sentBitPerSec := ∅; sentRetransmits := ∅;
          receivedBitPerSec := ∅; receivedRetransmits := ∅ |} |}.

(** The sampler that the four [Set] calls leave when the label is
    accepted. *)
Definition after_result (server : string) (r : IPerf3Result) (s : Sampler) : Sampler :=
  let m := metrics s in
  {| logged := logged s;
     metrics :=
       {| errorCount := errorCount m;
          sentBitPerSec :=
            <[server := BitsPerSecond (SumSent (End r))]> (sentBitPerSec m);
          sentRetransmits :=
            <[server := Retransmits (SumSent (End r))]> (sentRetransmits m);
          receivedBitPerSec :=
            <[server := BitsPerSecond (SumReceived (End r))]> (receivedBitPerSec m);
          receivedRetransmits :=
            <[server := Retransmits (SumReceived (End r))]> (receivedRetransmits m) |} |}.


(** The argument vector that [ExecIPerf3] runs. *)
Definition iperf3_command (server port : string) : list string :=
  Args (exec_Command "iperf3" (iperf3_args server port)).

(** Whether a pass of the loop against [sys] takes the error branch. *)
Definition fails (server port : string) (sys : System) : bool :=
  match snd (ExecIPerf3 sys server port) with
  | Some _ => true
  | None => false
  end.

(** The number of failed measurements among the passes [syss]. *)
Definition failures (server port : string) (syss : list System) : nat :=
  length (List.filter (fails server port) syss).

(** The [float64] that a gauge raised [n] times from nothing holds; no
    gauge exists before the first time. *)
Definition tally (n : nat) : option float64 :=
  match n with
  | O => None
  | S _ => Some (of_Z (Z.of_nat n))
  end.

(** The sleep in which a pass ends. *)
Definition delay (p : Pass) : option Duration :=
  match p with
  | Sleep _ d => Some d
  | Panic => None
  end.

(** The four gauges of the label value [lv], when all of them exist. *)
Definition gauges (m : Metrics) (lv : string)
  : option (float64 * float64 * float64 * float64) :=
  match sentBitPerSec m !! lv, sentRetransmits m !! lv,
        receivedBitPerSec m !! lv, receivedRetransmits m !! lv with
  | Some a, Some b, Some c, Some d => Some (a, b, c, d)
  | _, _, _, _ => None
  end.

(** None of the four gauges of [lv] exists. *)
Definition absent (m : Metrics) (lv : string) : Prop :=
  sentBitPerSec m !! lv = None /\ sentRetransmits m !! lv = None /\
  receivedBitPerSec m !! lv = None /\ receivedRetransmits m !! lv = None.

(** The four numbers of a report that the sampler publishes. *)
Definition published (r : IPerf3Result) : float64 * float64 * float64 * float64 :=
  (BitsPerSecond (SumSent (End r)), Retransmits (SumSent (End r)),
   BitsPerSecond (SumReceived (End r)), Retransmits (SumReceived (End r))).

(** The samples that a scrape shows for a report: name and value. *)
Definition report_samples (r : IPerf3Result) : list (string * float64) :=
  [(fqName c_sentBitPerSec, BitsPerSecond (SumSent (End r)));
   (fqName c_sentRetransmits, Retransmits (SumSent (End r)));
   (fqName c_receivedBitPerSec, BitsPerSecond (SumReceived (End r)));
   (fqName c_receivedRetransmits, Retransmits (SumReceived (End r)))].

(** The kinds of failure that the specification tells apart. *)
Inductive Failure :=
| LaunchFailure
| ExitStatusFailure (code : Z)
| ParseFailure
| ToolReportedFailure (message : string).

(** The kind of an error that [ExecIPerf3] hands out: a command that could
    not be started or was terminated by a signal is a launch failure, an
    [ExitError] of a command that exited holds its exit status, an error of
    [encoding/json] is a parse failure and an error made of a text reports
    that text. *)
Definition failure_of (e : error) : Failure :=
  match e with
  | exec_Error _ => LaunchFailure
  | exec_ExitError (signaled _) => LaunchFailure
  | exec_ExitError (exited code) => ExitStatusFailure code
  | json_SyntaxError | json_UnmarshalTypeError => ParseFailure
  | errorString s => ToolReportedFailure s
  end.

Definition is_fatal (p : Process) : bool :=
  match p with
  | Fatal _ _ => true
  | _ => false
  end.

(** The process is still serving unless the interval does not parse or the
    listener returns: claim C8 as it is worded, for every value of the
    flags. *)
Definition exits_only_on_bad_interval_or_listener : Prop :=
  forall (time_ParseDuration : string -> error + Duration)
         (flags : Flags) (listen : option error) (syss : list System),
    (is_fatal (main time_ParseDuration flags listen syss) = true
     <-> (exists e, time_ParseDuration (interval flags) = inl e)
         \/ (exists e, listen = Some e))
    /\ main time_ParseDuration flags listen syss <> Panicked.

(** *** Shapes of tool output *)

Definition is_null (v : json) : bool :=
  match v with JNull => true | _ => false end.

(** A value that a [float32] or [float64] field accepts. *)
Definition float_typed (prec emax : Z) (v : json) : bool :=
  match v with
  | JNull => true
  | JNumber n =>
      match ParseFloat prec emax (num_neg n) (num_mant n) (num_exp10 n) with
      | Some _ => true
      | None => false
      end
  | _ => false
  end.

(** A value that an [int] field accepts. *)
Definition int_typed (v : json) : bool :=
  match v with
  | JNull => true
  | JNumber n =>
      num_integral n
      && (if num_neg n then (num_mant n <=? 2 ^ 63)%N else (num_mant n <? 2 ^ 63)%N)
  | _ => false
  end.

Definition string_typed (v : json) : bool :=
  match v with
  | JNull | JString _ => true
  | _ => false
  end.

(** An object all of whose members pass [member], or [null]. *)
Definition struct_typed (member : string -> json -> bool) (v : json) : bool :=
  match v with
  | JNull => true
  | JObject ms => forallb (fun kv => member (fst kv) (snd kv)) ms
  | _ => false
  end.

Definition Summary_member_typed (k : string) (v : json) : bool :=
  if key_is "start" k then float_typed prec32 emax32 v
  else if key_is "end" k then float_typed prec32 emax32 v
  else if key_is "seconds" k then float_typed prec32 emax32 v
  else if key_is "bytes" k then int_typed v
  else if key_is "bits_per_second" k then float_typed prec64 emax64 v
  else if key_is "retransmits" k then float_typed prec64 emax64 v
  else true.

Definition End_member_typed (k : string) (v : json) : bool :=
  if key_is "sum_sent" k then struct_typed Summary_member_typed v
  else if key_is "sum_received" k then struct_typed Summary_member_typed v
  else true.

Definition Result_member_typed (k : string) (v : json) : bool :=
  if key_is "error" k then string_typed v
  else if key_is "end" k then struct_typed End_member_typed v
  else true.

(** The output has the shape of a report: every member that names a field
    of the report holds [null] or a value of the JSON type of that field. *)
Definition report_typed (v : json) : bool := struct_typed Result_member_typed v.

(** No member of [v] (if [v] is an object) that is named [field] fails [ok]. *)
Definition members_named (field : string) (ok : json -> bool) (v : json) : bool :=
  match v with
  | JObject ms =>
      forallb (fun kv => if key_is field (fst kv) then ok (snd kv) else true) ms
  | _ => true
  end.

(** The output gives no error message: it has no member [error], or only
    empty or [null] ones. *)
Definition no_error_message (v : json) : bool :=
  members_named "error"
    (fun x => match x with JNull => true | JString s => String.eqb s "" | _ => false end) v.

(** The output supplies no value for the field [field] of the summary
    [summary]: some object on the way is missing, or the member is [null]. *)
Definition lacks (summary field : string) (v : json) : bool :=
  members_named "end" (members_named summary (members_named field is_null)) v.

(** The output leaves at least one of the four published numbers out. *)
Definition lacks_some (v : json) : bool :=
  lacks "sum_sent" "bits_per_second" v || lacks "sum_sent" "retransmits" v
  || lacks "sum_received" "bits_per_second" v || lacks "sum_received" "retransmits" v.

(** Claim C10 as it is worded: whatever valid JSON the tool prints with
    exit status 0, if it lacks some of the expected fields and gives no
    error message, the measurement succeeds. *)
Definition succeeds_on_every_incomplete_output : Prop :=
  forall (server port out : string) (v : json),
    parse out = Some v -> lacks_some v = true -> no_error_message v = true ->
    exists r, ExecIPerf3 (fun _ => Exits 0 out) server port = (Some r, None).

(** [p] with [k] zero bits appended. *)
Definition shl (p : positive) (k : Z) : positive :=
  match k with
  | Zpos k' => Pos.iter xO p k'
  | _ => p
  end.

(** ** Concrete inputs

    Tool runs and outputs on which the statements below are tried. *)

(** The tool exits with status 1, with status 3, and with status 0 after
    printing an empty object. *)
Definition sys_exit_1 : System := fun _ => Exits 1 "".
Definition sys_exit_3 : System := fun _ => Exits 3 "".
Definition sys_exit_0_empty_object : System := fun _ => Exits 0 "{}".

(** Scenario D: the tool reports that it cannot connect. *)
Definition unable_to_connect : string :=
  q "{'error':'unable to connect to server','end':{}}".
Definition sys_unable_to_connect : System := fun _ => Exits 0 unable_to_connect.

(** Scenario A, and a second report with other numbers. *)
Definition report_A : string :=
  q "{'end':{'sum_sent':{'bits_per_second':1000000,'retransmits':2},'sum_received':{'bits_per_second':950000,'retransmits':0}}}".
Definition report_B : string :=
  q "{'end':{'sum_sent':{'bits_per_second':7.5e5,'retransmits':0},'sum_received':{'bits_per_second':700000.25,'retransmits':1}}}".

Definition sys_report_A : System := fun _ => Exits 0 report_A.
Definition sys_report_B : System := fun _ => Exits 0 report_B.

Definition result_A : IPerf3Result :=
  {| Error := "";
     End := {| SumSent :=
                 {| Start := zero; Summary.End := zero; Seconds := zero; Bytes := 0;
                    BitsPerSecond := of_Z 1000000; Retransmits := of_Z 2 |};
               SumReceived :=
                 {| Start := zero; Summary.End := zero; Seconds := zero; Bytes := 0;
                    BitsPerSecond := of_Z 950000; Retransmits := of_Z 0 |} |} |}.

(** 700000.25 is 6012956361883648 / 2^33. *)
Definition result_B : IPerf3Result :=
  {| Error := "";
     End := {| SumSent :=
                 {| Start := zero; Summary.End := zero; Seconds := zero; Bytes := 0;
                    BitsPerSecond := of_Z 750000; Retransmits := of_Z 0 |};
               SumReceived :=
                 {| Start := zero; Summary.End := zero; Seconds := zero; Bytes := 0;
                    BitsPerSecond := S754_finite false 6012956361883648 (-33);
                    Retransmits := of_Z 1 |} |} |}.

(** A [time.ParseDuration] that knows the default interval only. *)
Definition parse_5m (s : string) : error + Duration :=
  if String.eqb s "5m" then inr (300 * Second)
  else inl (errors_New "time: invalid duration").

(** Output whose [sum_sent] has a text where the number of bits per second
    belongs, and nothing else. *)
Definition mistyped_report : string :=
  q "{'end':{'sum_sent':{'bits_per_second':'fast'}}}".

(** Output with an empty [end]. *)
Definition empty_end : string := q "{'end':{}}".
Definition sys_empty_end : System := fun _ => Exits 0 empty_end.

(** ** Vocabulary of the further properties *)

(** The errors that the passes [syss] run into, in order. *)
Definition errors_of (server port : string) (syss : list System) : list error :=
  omap (fun sys => snd (ExecIPerf3 sys server port)) syss.

(** [time.Sleep(d)] returns at once when [d] is zero or negative. *)
Definition time_Sleep (d : Duration) : Duration := Z.max 0 d.

(** The time the loop spends asleep while it makes the passes [syss]. *)
Fixpoint slept (server port : string) (execInterval : Duration)
  (syss : list System) (s : Sampler) : Duration :=
  match syss with
  | [] => 0
  | sys :: rest =>
      match pass server port execInterval sys s with
      | Sleep s' d => time_Sleep d + slept server port execInterval rest s'
      | Panic => 0
      end
  end.

(** The samples of a report as a page lists them for [server]: in the
    order of their names. *)
Definition report_scrape (server : string) (r : IPerf3Result) : list Sample :=
  [(fqName c_receivedBitPerSec, server, BitsPerSecond (SumReceived (End r)));
   (fqName c_receivedRetransmits, server, Retransmits (SumReceived (End r)));
   (fqName c_sentBitPerSec, server, BitsPerSecond (SumSent (End r)));
   (fqName c_sentRetransmits, server, Retransmits (SumSent (End r)))].

(** The JSON names of the fields of the three structs. *)
Definition Summary_fields : list string :=
  ["start"; "end"; "seconds"; "bytes"; "bits_per_second"; "retransmits"].
Definition End_fields : list string := ["sum_sent"; "sum_received"].
Definition Result_fields : list string := ["error"; "end"].

Definition names_field (fields : list string) (k : string) : bool :=
  existsb (fun f => key_is f k) fields.

(** [f] applied to the members of an object; other values are left alone. *)
Definition on_members (f : list (string * json) -> list (string * json)) (v : json)
  : json :=
  match v with
  | JObject ms => JObject (f ms)
  | _ => v
  end.

(** The output without the members that name no field of the report, at
    the three levels at which fields are looked up. *)
Definition prune_Summary : json -> json :=
  on_members (List.filter (fun kv => names_field Summary_fields (fst kv))).

Definition prune_End : json -> json :=
  on_members (fun ms =>
    map (fun kv => (fst kv, prune_Summary (snd kv)))
        (List.filter (fun kv => names_field End_fields (fst kv)) ms)).

Definition prune_Result : json -> json :=
  on_members (fun ms =>
    map (fun kv => (fst kv, if key_is "error" (fst kv) then snd kv
                            else prune_End (snd kv)))
        (List.filter (fun kv => names_field Result_fields (fst kv)) ms)).

(** The output with every key [k] at these three levels replaced by [f k]. *)
Definition rekey_Summary (f : string -> string) : json -> json :=
  on_members (map (fun kv => (f (fst kv), snd kv))).

Definition rekey_End (f : string -> string) : json -> json :=
  on_members (map (fun kv =>
    (f (fst kv),
     if key_is "sum_sent" (fst kv) || key_is "sum_received" (fst kv)
     then rekey_Summary f (snd kv) else snd kv))).

Definition rekey_Result (f : string -> string) : json -> json :=
  on_members (map (fun kv =>
    (f (fst kv),
     if key_is "error" (fst kv) then snd kv
     else if key_is "end" (fst kv) then rekey_End f (snd kv)
     else snd kv))).

(** The four published numbers of a report are finite. *)
Definition finite_report (r : IPerf3Result) : Prop :=
  is_finite (BitsPerSecond (SumSent (End r))) = true
  /\ is_finite (Retransmits (SumSent (End r))) = true
  /\ is_finite (BitsPerSecond (SumReceived (End r))) = true
  /\ is_finite (Retransmits (SumReceived (End r))) = true.

(** A vector that is empty or holds the one gauge of [server]. *)
Definition small (server : string) (vec : gmap string float64) : Prop :=
  vec = ∅ \/ exists v, vec = {[server := v]}.

Definition all_small (server : string) (m : Metrics) : Prop :=
  forall c, small server (vec_of m c).

Definition finite_summary (m : IPerf3Summary) : Prop :=
  is_finite (BitsPerSecond m) = true /\ is_finite (Retransmits m) = true.

(** ** More concrete inputs *)

(** Output as the tool prints it for a TCP test, shortened: it has members
    that name no field of the report, and [sum_received] has no
    [retransmits]. *)
Definition full_output : string :=
  q "{'start':{'version':'iperf 3.9','test_start':{'protocol':'TCP','duration':10}},'intervals':[],'end':{'streams':[{'sender':{'socket':5,'bytes':1250000000}}],'sum_sent':{'start':0,'end':10.000123,'seconds':10.000123,'bytes':1250000000,'bits_per_second':999987700.5,'retransmits':3,'sender':true},'sum_received':{'start':0,'end':10.000123,'seconds':10.000123,'bytes':1249000000,'bits_per_second':999187710.25,'sender':true},'cpu_utilization_percent':{'host_total':2.5}}}".

(** The same output without the members that name no field. *)
Definition pruned_output : string :=
  q "{'end':{'sum_sent':{'start':0,'end':10.000123,'seconds':10.000123,'bytes':1250000000,'bits_per_second':999987700.5,'retransmits':3},'sum_received':{'start':0,'end':10.000123,'seconds':10.000123,'bytes':1249000000,'bits_per_second':999187710.25}}}".

(** Scenario A with its keys in other letter cases. *)
Definition report_A_other_case : string :=
  q "{'END':{'Sum_Sent':{'BITS_PER_SECOND':1000000,'Retransmits':2},'Sum_Received':{'BITS_PER_SECOND':950000,'Retransmits':0}}}".

Definition other_case (k : string) : string :=
  if String.eqb k "end" then "END"
  else if String.eqb k "sum_sent" then "Sum_Sent"
  else if String.eqb k "sum_received" then "Sum_Received"
  else if String.eqb k "bits_per_second" then "BITS_PER_SECOND"
  else if String.eqb k "retransmits" then "Retransmits"
  else k.

Definition sys_full_output : System := fun _ => Exits 0 full_output.
Definition sys_pruned_output : System := fun _ => Exits 0 pruned_output.
Definition sys_report_A_other_case : System := fun _ => Exits 0 report_A_other_case.

(** A value of the flag [-server] that is not valid UTF-8: the one byte
    0xFF. *)
Definition server_0xFF : string := String (ascii_of_N 255) EmptyString.

Definition Flags_server_0xFF : Flags :=
  {| server := server_0xFF; port := "5201"; interval := "5m"; addr := ":9103" |}.

(** Samples of other collectors, as a page may hold them. *)
Definition other_samples : list Sample :=
  [("go_goroutines", "", of_Z 9); ("process_open_fds", "", of_Z 11)].

(** A sampler whose error gauge has reached [2^53]. *)
Definition Sampler_saturated : Sampler :=
  {| metrics :=
       {| errorCount := {[ "127.0.0.1" := of_Z (2 ^ 53) ]};
          sentBitPerSec := ∅; sentRetransmits := ∅;
          receivedBitPerSec := ∅; receivedRetransmits := ∅ |};
     logged := [] |}.

(** * Properties *)

(** ** Counting in [float64]

    A gauge counts by adding 1.0; up to [2^53] every integer is a
    [float64] and the sum is exact. *)

Section FloatFacts.

Lemma iter_pos_comm {A} (f : A -> A) (n : positive) (x : A) :
  SpecFloat.iter_pos f n (f x) = f (SpecFloat.iter_pos f n x).
Proof.
  revert x. induction n as [n IH | n IH |]; intros x; simpl.
  - now rewrite !IH.
  - now rewrite !IH.
  - reflexivity.
Qed.

Lemma iter_pos_succ {A} (f : A -> A) (n : positive) (x : A) :
  SpecFloat.iter_pos f (Pos.succ n) x = f (SpecFloat.iter_pos f n x).
Proof.
  revert x. induction n as [n IH | n IH |]; intros x; simpl.
  - rewrite !IH. now rewrite <- !iter_pos_comm.
  - now rewrite <- !iter_pos_comm.
  - reflexivity.
Qed.

Lemma digits2_pos_iter_xO (p k : positive) :
  digits2_pos (Pos.iter xO p k) = (digits2_pos p + k)%positive.
Proof.
  induction k as [| k IH] using Pos.peano_ind.
  - simpl. lia.
  - rewrite Pos.iter_succ. simpl. rewrite IH. lia.
Qed.

Lemma shr_1_iter_xO (p k : positive) :
  SpecFloat.iter_pos shr_1 k {| shr_m := Zpos (Pos.iter xO p k); shr_r := false; shr_s := false |}
  = {| shr_m := Zpos p; shr_r := false; shr_s := false |}.
Proof.
  revert p. induction k as [| k IH] using Pos.peano_ind; intros p.
  - reflexivity.
  - rewrite iter_pos_succ, Pos.iter_succ_r, IH. reflexivity.
Qed.

Lemma Zpos_iter_xO (p k : positive) :
  Zpos (Pos.iter xO p k) = Zpos p * 2 ^ Zpos k.
Proof.
  induction k as [| k IH] using Pos.peano_ind.
  - simpl. lia.
  - rewrite Pos.iter_succ, Pos2Z.inj_xO, IH, Pos2Z.inj_succ, Z.pow_succ_r by lia. lia.
Qed.

Lemma Zpos_shl (p : positive) (k : Z) : 0 <= k -> Zpos (shl p k) = Zpos p * 2 ^ k.
Proof.
  destruct k as [| k | k]; intros Hk; simpl shl.
  - lia.
  - apply Zpos_iter_xO.
  - lia.
Qed.

Lemma digits2_pos_shl (p : positive) (k : Z) :
  0 <= k -> Zpos (digits2_pos (shl p k)) = Zpos (digits2_pos p) + k.
Proof.
  destruct k as [| k | k]; intros Hk; simpl shl.
  - lia.
  - rewrite digits2_pos_iter_xO. lia.
  - lia.
Qed.

Lemma shl_align_spec (mx : positive) (ex ex' : Z) :
  shl_align mx ex ex' = if ex' <? ex then (shl mx (ex - ex'), ex') else (mx, ex).
Proof.
  unfold shl_align. destruct (Z.ltb_spec ex' ex) as [H | H].
  - destruct (ex' - ex) as [| d | d] eqn:E; try lia.
    replace (ex - ex') with (Zpos d) by lia. reflexivity.
  - destruct (ex' - ex) as [| d | d] eqn:E; try lia; reflexivity.
Qed.

Lemma binary_round_aux_exact (q : positive) (k e : Z) :
  Zpos (digits2_pos q) = 53 -> 0 <= k -> -1074 <= e + k <= 971 ->
  binary_round_aux 53 1024 false (Zpos (shl q k)) e loc_Exact
  = S754_finite false q (e + k).
Proof.
  intros Hq Hk He.
  unfold binary_round_aux, shr_fexp. cbn [Zdigits2].
  rewrite digits2_pos_shl, Hq by lia.
  replace (fexp 53 1024 (53 + k + e) - e) with k by (unfold fexp, emin; lia).
  destruct k as [| k | k]; try lia.
  - cbn [shl shr shr_record_of_loc shr_m loc_of_shr_record round_nearest_even Zdigits2].
    rewrite Hq.
    replace (fexp 53 1024 (53 + e) - e) with 0 by (unfold fexp, emin; lia).
    cbn [shr shr_m].
    replace (e <=? 1024 - 53) with true by lia.
    now rewrite Z.add_0_r.
  - cbn [shl shr shr_record_of_loc].
    rewrite shr_1_iter_xO.
    cbn [shr_m loc_of_shr_record round_nearest_even Zdigits2 shr_record_of_loc].
    rewrite Hq.
    replace (fexp 53 1024 (53 + (e + Zpos k)) - (e + Zpos k)) with 0
      by (unfold fexp, emin; lia).
    cbn [shr shr_m].
    now replace (e + Zpos k <=? 1024 - 53) with true by lia.
Qed.

Lemma binary_round_trailing (q : positive) (k e : Z) :
  Zpos (digits2_pos q) = 53 -> 0 <= k -> -1074 <= e + k <= 971 ->
  binary_round 53 1024 false (shl q k) e = S754_finite false q (e + k).
Proof.
  intros Hq Hk He. unfold binary_round.
  rewrite shl_align_spec, digits2_pos_shl, Hq by lia.
  replace (fexp 53 1024 (53 + k + e) <? e) with false by (unfold fexp, emin; lia).
  now apply binary_round_aux_exact.
Qed.

Lemma shl_shl (p : positive) (a b : Z) :
  0 <= a -> 0 <= b -> shl (shl p a) b = shl p (a + b).
Proof.
  intros Ha Hb. apply Pos2Z.inj.
  rewrite !Zpos_shl, Z.pow_add_r by lia. lia.
Qed.

Lemma shl_0 (p : positive) : shl p 0 = p.
Proof. reflexivity. Qed.

Lemma binary_round_short (p : positive) (e : Z) :
  Zpos (digits2_pos p) <= 53 ->
  -1074 <= e - (53 - Zpos (digits2_pos p)) <= 971 ->
  binary_round 53 1024 false p e
  = S754_finite false (shl p (53 - Zpos (digits2_pos p)))
      (e - (53 - Zpos (digits2_pos p))).
Proof.
  intros Hd He. unfold binary_round.
  rewrite shl_align_spec.
  set (d := Zpos (digits2_pos p)) in *.
  replace (fexp 53 1024 (d + e)) with (e - (53 - d)) by (unfold fexp, emin; lia).
  destruct (Z.ltb_spec (e - (53 - d)) e) as [H | H].
  - replace (e - (e - (53 - d))) with (53 - d) by lia.
    rewrite <- (shl_0 (shl p (53 - d))) at 1.
    rewrite binary_round_aux_exact
      by (rewrite ?digits2_pos_shl by lia; fold d; lia).
    now rewrite Z.add_0_r.
  - replace (53 - d) with 0 by lia. rewrite shl_0.
    rewrite <- (shl_0 p) at 1.
    rewrite binary_round_aux_exact by (fold d; lia).
    f_equal; lia.
Qed.

Lemma digits2_pos_bounds (p : positive) :
  2 ^ (Zpos (digits2_pos p) - 1) <= Zpos p < 2 ^ Zpos (digits2_pos p).
Proof.
  induction p as [p IH | p IH |]; cbn [digits2_pos].
  - rewrite Pos2Z.inj_succ, Pos2Z.inj_xI, Z.pow_succ_r by lia.
    replace (Z.succ (Zpos (digits2_pos p)) - 1) with (Zpos (digits2_pos p)) by lia.
    replace (2 ^ Zpos (digits2_pos p)) with (2 * 2 ^ (Zpos (digits2_pos p) - 1)) in *
      by (rewrite <- Z.pow_succ_r by lia; f_equal; lia).
    generalize dependent (2 ^ (Zpos (digits2_pos p) - 1)). intros; lia.
  - rewrite Pos2Z.inj_succ, (Pos2Z.inj_xO p), Z.pow_succ_r by lia.
    replace (Z.succ (Zpos (digits2_pos p)) - 1) with (Zpos (digits2_pos p)) by lia.
    replace (2 ^ Zpos (digits2_pos p)) with (2 * 2 ^ (Zpos (digits2_pos p) - 1)) in *
      by (rewrite <- Z.pow_succ_r by lia; f_equal; lia).
    generalize dependent (2 ^ (Zpos (digits2_pos p) - 1)). intros; lia.
  - simpl. lia.
Qed.

Lemma digits2_pos_le_53 (p : positive) : Zpos p < 2 ^ 53 -> Zpos (digits2_pos p) <= 53.
Proof.
  intros Hp. pose proof (digits2_pos_bounds p) as [Hlo _].
  destruct (Z.le_gt_cases (Zpos (digits2_pos p)) 53) as [H | H]; [exact H |].
  exfalso.
  assert (2 ^ 53 <= 2 ^ (Zpos (digits2_pos p) - 1)) by (apply Z.pow_le_mono_r; lia).
  lia.
Qed.

(** [float64(n)] for a positive [n] below [2^53]: the canonical mantissa
    and exponent. *)
Lemma of_Z_pos (p : positive) :
  Zpos p < 2 ^ 53 ->
  of_Z (Zpos p)
  = S754_finite false (shl p (53 - Zpos (digits2_pos p))) (Zpos (digits2_pos p) - 53).
Proof.
  intros Hp. unfold of_Z, binary_normalize, prec64, emax64.
  pose proof (digits2_pos_le_53 p Hp).
  rewrite binary_round_short by lia.
  f_equal. lia.
Qed.

Lemma add_one_of_Z (n : Z) : 0 <= n < 2 ^ 53 -> add (of_Z n) one = of_Z (n + 1).
Proof.
  intros [Hn0 Hn].
  destruct n as [| p | p]; [reflexivity | | lia].
  rewrite of_Z_pos by lia.
  pose proof (digits2_pos_le_53 p Hn) as Hd.
  set (d := Zpos (digits2_pos p)) in *.
  assert (1 <= d) by (subst d; lia).
  unfold add, one, SFadd.
  replace (Z.min (d - 53) (-52)) with (-52) by lia.
  rewrite !shl_align_spec.
  replace (-52 <? -52) with false by reflexivity.
  cbn [fst cond_Zopp].
  assert (Hsum : Zpos (fst (if -52 <? d - 53
                          then (shl (shl p (53 - d)) (d - 53 - -52), -52)
                          else (shl p (53 - d), d - 53)))
                 + 4503599627370496 = Zpos (shl (p + 1) 52)).
  { destruct (Z.ltb_spec (-52) (d - 53)); cbn [fst].
    - rewrite shl_shl by lia. rewrite !Zpos_shl by lia.
      replace (53 - d + (d - 53 - -52)) with 52 by lia. lia.
    - rewrite !Zpos_shl by lia. replace (53 - d) with 52 by lia. lia. }
  rewrite Hsum. clear Hsum.
  cbn [binary_normalize]. fold prec64 emax64.
  replace (Zpos p + 1) with (Zpos (p + 1)) by lia.
  destruct (Z.eq_dec (Zpos (p + 1)) (2 ^ 53)) as [E | E].
  - assert (p + 1 = 9007199254740992)%positive as -> by lia. reflexivity.
  - assert (Hp1 : Zpos (p + 1) < 2 ^ 53) by lia.
    rewrite of_Z_pos by exact Hp1.
    pose proof (digits2_pos_le_53 _ Hp1) as Hd'.
    pose proof (digits2_pos_bounds (p + 1)) as [Hlo _].
    set (d' := Zpos (digits2_pos (p + 1))) in *.
    assert (2 <= d').
    { destruct (Z.le_gt_cases 2 d') as [|Hlt]; [assumption|].
      assert (d' = 1) by (subst d'; lia).
      assert (Zpos (p + 1) < 2 ^ 1) by (pose proof (digits2_pos_bounds (p + 1)); subst d'; replace (Zpos (digits2_pos (p+1))) with 1 in * by lia; lia).
      lia. }
    replace (shl (p + 1) 52) with (shl (shl (p + 1) (53 - d')) (d' - 1))
      by (rewrite shl_shl by lia; f_equal; lia).
    unfold prec64, emax64.
    rewrite binary_round_trailing
      by (rewrite ?digits2_pos_shl by lia; fold d'; lia).
    f_equal. lia.
Qed.

Lemma of_Z_2p53 : of_Z (2 ^ 53) = S754_finite false 4503599627370496 1.
Proof. reflexivity. Qed.

Lemma digits2_pos_mono (p q : positive) :
  (p <= q)%positive -> Zpos (digits2_pos p) <= Zpos (digits2_pos q).
Proof.
  intros Hpq.
  pose proof (digits2_pos_bounds p) as [Hp _].
  pose proof (digits2_pos_bounds q) as [_ Hq].
  destruct (Z.le_gt_cases (Zpos (digits2_pos p)) (Zpos (digits2_pos q))) as [H | H];
    [exact H | exfalso].
  assert (2 ^ Zpos (digits2_pos q) <= 2 ^ (Zpos (digits2_pos p) - 1))
    by (apply Z.pow_le_mono_r; lia).
  lia.
Qed.

(** The order of [float64] agrees with the order of the integers it counts. *)
Lemma of_Z_le (a b : Z) :
  0 <= a <= b -> b <= 2 ^ 53 -> SFleb (of_Z a) (of_Z b) = true.
Proof.
  intros [Ha Hab] Hb.
  destruct a as [| pa | pa]; [| | lia].
  - destruct b as [| pb | pb]; [reflexivity | | lia].
    destruct (Z.eq_dec (Zpos pb) (2 ^ 53)) as [-> | Hne]; [reflexivity |].
    rewrite of_Z_pos by lia. reflexivity.
  - destruct b as [| pb | pb]; [lia | | lia].
    destruct (Z.eq_dec (Zpos pb) (2 ^ 53)) as [Eb | Hneb].
    + rewrite Eb, of_Z_2p53.
      destruct (Z.eq_dec (Zpos pa) (2 ^ 53)) as [Ea | Hnea].
      * rewrite Ea, of_Z_2p53. reflexivity.
      * rewrite of_Z_pos by lia.
        pose proof (digits2_pos_le_53 pa ltac:(lia)).
        unfold SFleb, SFcompare.
        destruct (Z.compare_spec (Zpos (digits2_pos pa) - 53) 1); [lia | reflexivity | lia].
    + rewrite !of_Z_pos by lia.
      pose proof (digits2_pos_le_53 pa ltac:(lia)) as Hda.
      pose proof (digits2_pos_le_53 pb ltac:(lia)) as Hdb.
      pose proof (digits2_pos_mono pa pb ltac:(lia)) as Hmono.
      unfold SFleb, SFcompare.
      destruct (Z.compare_spec (Zpos (digits2_pos pa) - 53) (Zpos (digits2_pos pb) - 53))
        as [E | E | E]; [| reflexivity | lia].
      assert (Ed : digits2_pos pa = digits2_pos pb) by lia.
      rewrite Ed.
      change (Pos.compare_cont Eq ?x ?y) with (Pos.compare x y).
      destruct (Pos.compare_spec (shl pa (53 - Zpos (digits2_pos pb)))
                  (shl pb (53 - Zpos (digits2_pos pb)))) as [E' | E' | E'];
        [reflexivity | reflexivity | exfalso].
      apply Pos2Z.pos_lt_pos in E'.
      rewrite !Zpos_shl in E' by lia.
      assert (0 < 2 ^ (53 - Zpos (digits2_pos pb))) by (apply Z.pow_pos_nonneg; lia).
      nia.
Qed.

End FloatFacts.

(** ** The measurement call *)

Section ExecFacts.

Variable sys : System.
Variables server port : string.

Lemma Run_iperf3 :
  Run sys (exec_Command "iperf3" (iperf3_args server port))
  = match sys (iperf3_command server port) with
    | StartFails reason =>
        (exec_Command "iperf3" (iperf3_args server port), Some (exec_Error reason))
    | Exits code out =>
        ({| Args := iperf3_command server port; Stdout := out;
            ProcessState_of := Some (exited code) |},
         if code =? 0 then None else Some (exec_ExitError (exited code)))
    | Signaled sig out =>
        ({| Args := iperf3_command server port; Stdout := out;
            ProcessState_of := Some (signaled sig) |},
         Some (exec_ExitError (signaled sig)))
    end.
Proof. reflexivity. Qed.

Lemma Run_nil (cmd cmd' : Cmd) :
  Run sys cmd = (cmd', None) -> ExitCode (ProcessState_of cmd') = 0.
Proof.
  unfold Run. destruct (sys (Args cmd)) as [reason | code out | sig out]; try discriminate.
  destruct (Z.eqb_spec code 0) as [-> | Hne]; [| discriminate].
  intros [= <-]. reflexivity.
Qed.

Lemma ExecIPerf3_StartFails (reason : string) :
  sys (iperf3_command server port) = StartFails reason ->
  ExecIPerf3 sys server port = (None, Some (exec_Error reason)).
Proof. intros H. unfold ExecIPerf3. rewrite Run_iperf3, H. reflexivity. Qed.

Lemma ExecIPerf3_Signaled (sig out : string) :
  sys (iperf3_command server port) = Signaled sig out ->
  ExecIPerf3 sys server port = (None, Some (exec_ExitError (signaled sig))).
Proof. intros H. unfold ExecIPerf3. rewrite Run_iperf3, H. reflexivity. Qed.

Lemma ExecIPerf3_Exits_nonzero (code : Z) (out : string) :
  code <> 0 ->
  sys (iperf3_command server port) = Exits code out ->
  ExecIPerf3 sys server port = (None, Some (exec_ExitError (exited code))).
Proof.
  intros Hne H. unfold ExecIPerf3. rewrite Run_iperf3, H.
  destruct (Z.eqb_spec code 0); [contradiction | reflexivity].
Qed.

Lemma ExecIPerf3_Exits_zero (out : string) :
  sys (iperf3_command server port) = Exits 0 out ->
  ExecIPerf3 sys server port
  = match json_Unmarshal out IPerf3Result_zero with
    | inl e => (None, Some e)
    | inr r =>
        if String.eqb (Error r) "" then (Some r, None)
        else (None, Some (errors_New (Error r)))
    end.
Proof.
  intros H. unfold ExecIPerf3. rewrite Run_iperf3, H. cbn.
  destruct (json_Unmarshal out IPerf3Result_zero) as [e | r]; [reflexivity |].
  destruct (String.eqb (Error r) ""); reflexivity.
Qed.

(** The call returns a report or an error, never both and never neither. *)
Lemma ExecIPerf3_shape :
  (exists e, ExecIPerf3 sys server port = (None, Some e))
  \/ (exists r, ExecIPerf3 sys server port = (Some r, None)).
Proof.
  destruct (sys (iperf3_command server port)) as [reason | code out | sig out] eqn:E.
  - left. eexists. exact (ExecIPerf3_StartFails _ E).
  - destruct (Z.eq_dec code 0) as [-> | Hne].
    + rewrite (ExecIPerf3_Exits_zero out E).
      destruct (json_Unmarshal out IPerf3Result_zero) as [e | r]; [left; eauto |].
      destruct (String.eqb (Error r) ""); [right | left]; eauto.
    + left. eexists. exact (ExecIPerf3_Exits_nonzero _ _ Hne E).
  - left. eexists. exact (ExecIPerf3_Signaled _ _ E).
Qed.

Lemma fails_true :
  fails server port sys = true ->
  exists e, ExecIPerf3 sys server port = (None, Some e).
Proof.
  unfold fails. destruct ExecIPerf3_shape as [[e He] | [r Hr]].
  - eauto.
  - rewrite Hr. discriminate.
Qed.

Lemma fails_false :
  fails server port sys = false ->
  exists r, ExecIPerf3 sys server port = (Some r, None).
Proof.
  unfold fails. destruct ExecIPerf3_shape as [[e He] | [r Hr]].
  - rewrite He. discriminate.
  - eauto.
Qed.

End ExecFacts.

(** ** The loop *)

Section SamplerFacts.

Variables server port : string.
Variable execInterval : Duration.
Hypothesis server_valid : utf8_ValidString server = true.

Lemma on_error_valid (e : error) (s : Sampler) :
  on_error server e s = Some (after_error server e s).
Proof. unfold on_error, GaugeVec.Add. now rewrite server_valid. Qed.

Lemma on_result_valid (r : IPerf3Result) (s : Sampler) :
  on_result server r s = Some (after_result server r s).
Proof. unfold on_result, GaugeVec.Set_. now rewrite server_valid. Qed.

Lemma pass_of_error (sys : System) (s : Sampler) (e : error) :
  ExecIPerf3 sys server port = (None, Some e) ->
  pass server port execInterval sys s = Sleep (after_error server e s) (Second * 10).
Proof. intros H. unfold pass. now rewrite H, on_error_valid. Qed.

Lemma pass_of_result (sys : System) (s : Sampler) (r : IPerf3Result) :
  ExecIPerf3 sys server port = (Some r, None) ->
  pass server port execInterval sys s = Sleep (after_result server r s) execInterval.
Proof. intros H. unfold pass. now rewrite H, on_result_valid. Qed.

Lemma pass_sleeps (sys : System) (s : Sampler) :
  exists s' d, pass server port execInterval sys s = Sleep s' d.
Proof.
  destruct (ExecIPerf3_shape sys server port) as [[e He] | [r Hr]].
  - rewrite (pass_of_error sys s e He). eauto.
  - rewrite (pass_of_result sys s r Hr). eauto.
Qed.

Lemma loop_app (l1 l2 : list System) (s : Sampler) :
  loop server port execInterval (l1 ++ l2) s
  = match loop server port execInterval l1 s with
    | Some s' => loop server port execInterval l2 s'
    | None => None
    end.
Proof.
  revert s. induction l1 as [| sys l1 IH]; intros s; cbn [loop app]; [reflexivity |].
  destruct (pass server port execInterval sys s); [apply IH | reflexivity].
Qed.

(** With a label that [WithLabelValues] accepts no pass panics, so the loop
    gets through any number of passes. *)
Lemma loop_total (syss : list System) (s : Sampler) :
  exists s', loop server port execInterval syss s = Some s'.
Proof.
  revert s. induction syss as [| sys syss IH]; intros s; cbn [loop]; [eauto |].
  destruct (pass_sleeps sys s) as (s' & d & ->). apply IH.
Qed.

Lemma loop_snoc (syss : list System) (sys : System) (s s0 : Sampler) :
  loop server port execInterval syss s = Some s0 ->
  loop server port execInterval (syss ++ [sys]) s
  = match pass server port execInterval sys s0 with
    | Sleep s' _ => Some s'
    | Panic => None
    end.
Proof. intros H. rewrite loop_app, H. reflexivity. Qed.

Lemma failures_app (l1 l2 : list System) :
  failures server port (l1 ++ l2)
  = (failures server port l1 + failures server port l2)%nat.
Proof. unfold failures. now rewrite List.filter_app, List.length_app. Qed.

Lemma failures_one (sys : System) :
  failures server port [sys] = if fails server port sys then 1%nat else 0%nat.
Proof. unfold failures. cbn. now destruct (fails server port sys). Qed.

Lemma absent_after_error (e : error) (s : Sampler) (lv : string) :
  absent (metrics (after_error server e s)) lv.
Proof. repeat split; apply lookup_empty. Qed.

Lemma errorCount_after_error (e : error) (s : Sampler) :
  errorCount (metrics (after_error server e s)) !! server
  = Some (add (default zero (errorCount (metrics s) !! server)) one).
Proof. cbn. unfold GaugeVec.Add. apply lookup_insert_eq. Qed.

Lemma gauges_after_result (r : IPerf3Result) (s : Sampler) :
  gauges (metrics (after_result server r s)) server = Some (published r).
Proof.
  unfold gauges, after_result, GaugeVec.Set_. cbn.
  now rewrite !lookup_insert_eq.
Qed.

Lemma gauges_after_result_ne (r : IPerf3Result) (s : Sampler) (lv : string) :
  lv <> server ->
  sentBitPerSec (metrics (after_result server r s)) !! lv = sentBitPerSec (metrics s) !! lv
  /\ sentRetransmits (metrics (after_result server r s)) !! lv
     = sentRetransmits (metrics s) !! lv
  /\ receivedBitPerSec (metrics (after_result server r s)) !! lv
     = receivedBitPerSec (metrics s) !! lv
  /\ receivedRetransmits (metrics (after_result server r s)) !! lv
     = receivedRetransmits (metrics s) !! lv.
Proof.
  intros Hne. unfold after_result, GaugeVec.Set_. cbn.
  repeat split; apply lookup_insert_ne; congruence.
Qed.

Lemma tally_next (n : nat) :
  Z.of_nat (S n) <= 2 ^ 53 ->
  add (default zero (tally n)) one = of_Z (Z.of_nat (S n)).
Proof.
  intros Hn. destruct n as [| n]; [reflexivity |].
  change (add (of_Z (Z.of_nat (S n))) one = of_Z (Z.of_nat (S (S n)))).
  rewrite add_one_of_Z by lia. f_equal. lia.
Qed.

Lemma tally_le (n m : nat) (v : float64) :
  (n <= m)%nat -> Z.of_nat m <= 2 ^ 53 -> tally n = Some v ->
  exists v', tally m = Some v' /\ SFleb v v' = true.
Proof.
  intros Hnm Hm Hv. destruct n as [| n]; [discriminate |].
  destruct m as [| m]; [lia |].
  assert (v = of_Z (Z.of_nat (S n))) as -> by (unfold tally in Hv; congruence).
  exists (of_Z (Z.of_nat (S m))). split; [reflexivity |].
  apply of_Z_le; lia.
Qed.

(** The error gauge of [server] after the passes [syss]. *)
Lemma loop_errorCount (syss : list System) :
  Z.of_nat (failures server port syss) <= 2 ^ 53 ->
  exists s, loop server port execInterval syss Sampler_new = Some s
    /\ errorCount (metrics s) !! server = tally (failures server port syss).
Proof.
  induction syss as [| sys syss IH] using rev_ind; intros Hn.
  - exists Sampler_new. split; [reflexivity | apply lookup_empty].
  - rewrite failures_app, failures_one in Hn |- *.
    destruct IH as (s0 & Hs0 & Hc); [destruct (fails server port sys); lia |].
    rewrite (loop_snoc syss sys _ s0 Hs0).
    destruct (fails server port sys) eqn:Hf.
    + destruct (fails_true sys server port Hf) as [e He].
      rewrite (pass_of_error sys s0 e He).
      exists (after_error server e s0). split; [reflexivity |].
      rewrite errorCount_after_error, Hc, Nat.add_1_r.
      rewrite tally_next by lia. reflexivity.
    + destruct (fails_false sys server port Hf) as [r Hr].
      rewrite (pass_of_result sys s0 r Hr).
      exists (after_result server r s0). split; [reflexivity |].
      rewrite Nat.add_0_r. exact Hc.
Qed.

(** Whatever the last pass was, the four gauges of a label value are all
    there with the numbers of one report of an earlier pass, or none is. *)
Lemma loop_gauges (syss : list System) :
  exists s, loop server port execInterval syss Sampler_new = Some s
    /\ forall lv,
         absent (metrics s) lv
         \/ exists sys r, In sys syss
              /\ ExecIPerf3 sys server port = (Some r, None)
              /\ gauges (metrics s) lv = Some (published r).
Proof.
  induction syss as [| sys syss IH] using rev_ind.
  - exists Sampler_new. split; [reflexivity |].
    intros lv. left. repeat split; apply lookup_empty.
  - destruct IH as (s0 & Hs0 & Inv).
    rewrite (loop_snoc syss sys _ s0 Hs0).
    destruct (ExecIPerf3_shape sys server port) as [[e He] | [r Hr]].
    + rewrite (pass_of_error sys s0 e He).
      exists (after_error server e s0). split; [reflexivity |].
      intros lv. left. apply absent_after_error.
    + rewrite (pass_of_result sys s0 r Hr).
      exists (after_result server r s0). split; [reflexivity |].
      intros lv. destruct (decide (lv = server)) as [-> | Hne].
      * right. exists sys, r. split; [apply in_or_app; right; now left |].
        split; [exact Hr | apply gauges_after_result].
      * destruct (gauges_after_result_ne r s0 lv Hne) as (E1 & E2 & E3 & E4).
        destruct (Inv lv) as [(A1 & A2 & A3 & A4) | (sys' & r' & Hin & Hr' & Hg)].
        -- left. unfold absent. now rewrite E1, E2, E3, E4.
        -- right. exists sys', r'. split; [apply in_or_app; now left |].
           split; [exact Hr' |]. unfold gauges in *. now rewrite E1, E2, E3, E4.
Qed.

Lemma logged_length (syss : list System) (s : Sampler) :
  loop server port execInterval syss Sampler_new = Some s ->
  length (logged s) = failures server port syss.
Proof.
  revert s. induction syss as [| sys syss IH] using rev_ind; intros s.
  - intros [= <-]. reflexivity.
  - destruct (loop_total syss Sampler_new) as [s0 Hs0].
    rewrite (loop_snoc syss sys _ s0 Hs0), failures_app, failures_one.
    destruct (fails server port sys) eqn:Hf.
    + destruct (fails_true sys server port Hf) as [e He].
      rewrite (pass_of_error sys s0 e He). intros [= <-].
      cbn. rewrite (IH s0 Hs0). lia.
    + destruct (fails_false sys server port Hf) as [r Hr].
      rewrite (pass_of_result sys s0 r Hr). intros [= <-].
      cbn. rewrite (IH s0 Hs0). lia.
Qed.

End SamplerFacts.

(** ** The scrape *)

(** A page holds the samples of the collectors, those of [main] and the
    others, and no more. *)
Lemma In_Gather (others : list Sample) (registry : list Collector) (m : Metrics)
  (x : Sample) :
  In x (Gather others registry m)
  <-> In x others \/ In x (flat_map (collect m) registry).
Proof.
  unfold Gather. rewrite <- in_app_iff.
  pose proof (merge_sort_Permutation sample_le
                (others ++ flat_map (collect m) registry)) as HP.
  split; intros H.
  - exact (Permutation_in _ HP H).
  - exact (Permutation_in _ (Permutation_sym HP) H).
Qed.

Lemma scrape_spec (m : Metrics) (name lv : string) (v : float64) :
  In (name, lv, v) (scrape m)
  <-> exists c, In c registered /\ name = fqName c /\ vec_of m c !! lv = Some v.
Proof.
  unfold scrape. rewrite In_Gather. unfold collect. rewrite in_flat_map. split.
  - intros [[] | (c & Hc & Hin)]. apply in_map_iff in Hin as ([k x] & [= <- <- <-] & Hkx).
    exists c. repeat split; [exact Hc |].
    apply list_elem_of_In, elem_of_map_to_list in Hkx. exact Hkx.
  - intros (c & Hc & -> & Hv). right. exists c. split; [exact Hc |].
    apply in_map_iff. exists (lv, v). split; [reflexivity |].
    apply list_elem_of_In, elem_of_map_to_list. exact Hv.
Qed.

Lemma fqName_inj (c c' : Collector) : fqName c = fqName c' -> c = c'.
Proof. destruct c, c'; cbn; intros H; try reflexivity; discriminate. Qed.

Lemma scrape_after_error (server : string) (e : error) (s : Sampler) :
  scrape (metrics (after_error server e s)) = [].
Proof.
  unfold scrape, Gather, collect, registered, after_error.
  cbn [metrics vec_of flat_map app sentBitPerSec sentRetransmits receivedBitPerSec
       receivedRetransmits].
  now rewrite map_to_list_empty.
Qed.

Lemma scrape_after_result (server : string) (r : IPerf3Result) (s : Sampler)
  (name : string) (v : float64) :
  In (name, server, v) (scrape (metrics (after_result server r s)))
  <-> In (name, v) (report_samples r).
Proof.
  rewrite scrape_spec. unfold registered, report_samples. cbn [In]. split.
  - intros (c & Hc & -> & Hv).
    destruct Hc as [<- | [<- | [<- | [<- | []]]]];
      cbn in Hv; rewrite lookup_insert_eq in Hv;
      injection Hv as <-; tauto.
  - intros [H | [H | [H | [H | []]]]]; injection H as <- <-.
    + exists c_sentBitPerSec. repeat split; [tauto | apply lookup_insert_eq].
    + exists c_sentRetransmits. repeat split; [tauto | apply lookup_insert_eq].
    + exists c_receivedBitPerSec. repeat split; [tauto | apply lookup_insert_eq].
    + exists c_receivedRetransmits. repeat split; [tauto | apply lookup_insert_eq].
Qed.

Lemma error_count_not_registered (m : Metrics) (lv : string) (v : float64) :
  ~ In (fqName c_errorCount, lv, v) (scrape m).
Proof.
  rewrite scrape_spec. intros (c & Hc & Hname & _).
  apply fqName_inj in Hname. subst c.
  unfold registered in Hc. cbn in Hc. intuition discriminate.
Qed.

Lemma json_Unmarshal_error (data : string) (v : IPerf3Result) (e : error) :
  json_Unmarshal data v = inl e -> failure_of e = ParseFailure.
Proof.
  unfold json_Unmarshal. destruct (parse data) as [j |].
  - destruct (decode_Result j v); [discriminate | now intros [= <-]].
  - now intros [= <-].
Qed.

(** ** Decoding output that has the shape of a report *)

Section DecodeFacts.

Lemma decode_float_typed (prec emax : Z) (v : json) (d : spec_float) :
  float_typed prec emax v = true -> is_Some (decode_float prec emax v d).
Proof.
  destruct v; cbn; try discriminate; eauto.
  destruct (ParseFloat prec emax (num_neg n) (num_mant n) (num_exp10 n));
    [eauto | discriminate].
Qed.

Lemma decode_int_typed (v : json) (d : Z) :
  int_typed v = true -> is_Some (decode_int v d).
Proof.
  destruct v; cbn; try discriminate; eauto.
  intros [Hi Hr]%andb_prop. rewrite Hi. cbn [andb].
  assert (Hpow : Z.of_N (2 ^ 63) = 2 ^ 63) by reflexivity.
  destruct (num_neg n).
  - apply N.leb_le in Hr.
    replace (- 2 ^ 63 <=? - Z.of_N (num_mant n)) with true by lia.
    replace (- Z.of_N (num_mant n) <? 2 ^ 63) with true by lia.
    eauto.
  - apply N.ltb_lt in Hr.
    replace (- 2 ^ 63 <=? Z.of_N (num_mant n)) with true by lia.
    replace (Z.of_N (num_mant n) <? 2 ^ 63) with true by lia.
    eauto.
Qed.

Lemma decode_string_typed (v : json) (d : string) :
  string_typed v = true -> is_Some (decode_string v d).
Proof. destruct v; cbn; try discriminate; eauto. Qed.

Lemma decode_struct_typed {A : Type}
  (field : string -> json -> A -> option A) (member : string -> json -> bool) :
  (forall k v d, member k v = true -> is_Some (field k v d)) ->
  forall v d, struct_typed member v = true -> is_Some (decode_struct field v d).
Proof.
  intros Hfield v d. destruct v as [| | | | | ms]; cbn; try discriminate; eauto.
  revert d. induction ms as [| [k x] ms IH]; intros d; cbn; [eauto |].
  intros [Hkx Hms]%andb_prop.
  destruct (Hfield k x d Hkx) as [d' ->]. now apply IH.
Qed.

Lemma Summary_field_typed (k : string) (v : json) (d : IPerf3Summary) :
  Summary_member_typed k v = true -> is_Some (Summary_field k v d).
Proof.
  unfold Summary_member_typed, Summary_field, decode_float32, decode_float64.
  destruct (key_is "start" k);
    [intros H; destruct (decode_float_typed _ _ v (Start d) H) as [x ->]; cbn; eauto |].
  destruct (key_is "end" k);
    [intros H; destruct (decode_float_typed _ _ v (Summary.End d) H) as [x ->];
     cbn; eauto |].
  destruct (key_is "seconds" k);
    [intros H; destruct (decode_float_typed _ _ v (Seconds d) H) as [x ->]; cbn; eauto |].
  destruct (key_is "bytes" k);
    [intros H; destruct (decode_int_typed v (Bytes d) H) as [x ->]; cbn; eauto |].
  destruct (key_is "bits_per_second" k);
    [intros H; destruct (decode_float_typed _ _ v (BitsPerSecond d) H) as [x ->];
     cbn; eauto |].
  destruct (key_is "retransmits" k);
    [intros H; destruct (decode_float_typed _ _ v (Retransmits d) H) as [x ->];
     cbn; eauto |].
  eauto.
Qed.

Lemma End_field_typed (k : string) (v : json) (d : IPerf3End) :
  End_member_typed k v = true -> is_Some (End_field k v d).
Proof.
  unfold End_member_typed, End_field, decode_Summary.
  destruct (key_is "sum_sent" k);
    [intros H;
     destruct (decode_struct_typed _ _ Summary_field_typed v (SumSent d) H) as [x ->];
     cbn; eauto |].
  destruct (key_is "sum_received" k);
    [intros H;
     destruct (decode_struct_typed _ _ Summary_field_typed v (SumReceived d) H) as [x ->];
     cbn; eauto |].
  eauto.
Qed.

Lemma Result_field_typed (k : string) (v : json) (d : IPerf3Result) :
  Result_member_typed k v = true -> is_Some (Result_field k v d).
Proof.
  unfold Result_member_typed, Result_field, decode_End.
  destruct (key_is "error" k);
    [intros H; destruct (decode_string_typed v (Error d) H) as [x ->]; cbn; eauto |].
  destruct (key_is "end" k);
    [intros H;
     destruct (decode_struct_typed _ _ End_field_typed v (End d) H) as [x ->];
     cbn; eauto |].
  eauto.
Qed.

(** Output that has the shape of a report decodes. *)
Lemma decode_Result_typed (v : json) (d : IPerf3Result) :
  report_typed v = true -> is_Some (decode_Result v d).
Proof. apply decode_struct_typed, Result_field_typed. Qed.

(** A property of the destination that every member named [name] keeps
    when it passes [ok], and every other member keeps anyway, holds after
    decoding a value whose members named [name] all pass [ok]. *)
Lemma decode_struct_invariant {A : Type}
  (field : string -> json -> A -> option A) (P : A -> Prop)
  (name : string) (ok : json -> bool) :
  (forall k v d d',
     (if key_is name k then ok v else true) = true ->
     field k v d = Some d' -> P d -> P d') ->
  forall v d d',
    members_named name ok v = true ->
    decode_struct field v d = Some d' -> P d -> P d'.
Proof.
  intros Hfield v d d'. destruct v as [| | | | | ms]; cbn; try discriminate.
  - now intros _ [= <-].
  - revert d. induction ms as [| [k x] ms IH]; intros d; cbn.
    + now intros _ [= <-].
    + intros [Hkx Hms]%andb_prop.
      destruct (field k x d) as [d1 |] eqn:Hd1; [| discriminate].
      intros Hd' Hd. apply (IH d1 Hms Hd'). exact (Hfield k x d d1 Hkx Hd1 Hd).
Qed.

Lemma decode_float_null (prec emax : Z) (v : json) (d x : spec_float) :
  is_null v = true -> decode_float prec emax v d = Some x -> x = d.
Proof. destruct v; cbn; try discriminate. now intros _ [= <-]. Qed.

Lemma Summary_field_keeps_BitsPerSecond (x : float64) (k : string) (v : json)
  (d d' : IPerf3Summary) :
  (if key_is "bits_per_second" k then is_null v else true) = true ->
  Summary_field k v d = Some d' -> BitsPerSecond d = x -> BitsPerSecond d' = x.
Proof.
  unfold Summary_field, decode_float32, decode_float64. intros Hok Hf <-.
  repeat case_match; simplify_option_eq; try reflexivity.
  eapply decode_float_null; eauto.
Qed.

Lemma Summary_field_keeps_Retransmits (x : float64) (k : string) (v : json)
  (d d' : IPerf3Summary) :
  (if key_is "retransmits" k then is_null v else true) = true ->
  Summary_field k v d = Some d' -> Retransmits d = x -> Retransmits d' = x.
Proof.
  unfold Summary_field, decode_float32, decode_float64. intros Hok Hf <-.
  repeat case_match; simplify_option_eq; try reflexivity.
  eapply decode_float_null; eauto.
Qed.

Lemma End_field_keeps_SumSent (P : IPerf3Summary -> Prop) (ok : json -> bool) :
  (forall v d d', ok v = true -> decode_Summary v d = Some d' -> P d -> P d') ->
  forall k v d d',
    (if key_is "sum_sent" k then ok v else true) = true ->
    End_field k v d = Some d' -> P (SumSent d) -> P (SumSent d').
Proof.
  intros HP k v d d'. unfold End_field. intros Hok Hf Hd.
  repeat case_match; simplify_option_eq; eauto.
Qed.

Lemma End_field_keeps_SumReceived (P : IPerf3Summary -> Prop) (ok : json -> bool) :
  (forall v d d', ok v = true -> decode_Summary v d = Some d' -> P d -> P d') ->
  forall k v d d',
    (if key_is "sum_received" k then ok v else true) = true ->
    End_field k v d = Some d' -> P (SumReceived d) -> P (SumReceived d').
Proof.
  intros HP k v d d'. unfold End_field. intros Hok Hf Hd.
  repeat case_match; simplify_option_eq; eauto.
Qed.

Lemma Result_field_keeps_End (P : IPerf3End -> Prop) (ok : json -> bool) :
  (forall v d d', ok v = true -> decode_End v d = Some d' -> P d -> P d') ->
  forall k v d d',
    (if key_is "end" k then ok v else true) = true ->
    Result_field k v d = Some d' -> P (End d) -> P (End d').
Proof.
  intros HP k v d d'. unfold Result_field. intros Hok Hf Hd.
  repeat case_match; simplify_option_eq; eauto.
Qed.

Lemma Result_field_keeps_no_Error (k : string) (v : json) (d d' : IPerf3Result) :
  (if key_is "error" k
   then match v with
        | JNull => true
        | JString s => String.eqb s ""
        | _ => false
        end
   else true) = true ->
  Result_field k v d = Some d' -> Error d = "" -> Error d' = "".
Proof.
  unfold Result_field, decode_string. intros Hok Hf Hd.
  repeat case_match; simplify_option_eq; try reflexivity; try assumption.
  now apply String.eqb_eq.
Qed.

(** A summary number that the output does not supply stays as it was. *)
Lemma lacks_sum_sent (get : IPerf3Summary -> float64) (field : string) :
  (forall x k v d d',
     (if key_is field k then is_null v else true) = true ->
     Summary_field k v d = Some d' -> get d = x -> get d' = x) ->
  forall v d r,
    lacks "sum_sent" field v = true -> decode_Result v d = Some r ->
    get (SumSent (End r)) = get (SumSent (End d)).
Proof.
  intros Hget v d r Hl Hr.
  refine (decode_struct_invariant Result_field
            (fun r' => get (SumSent (End r')) = get (SumSent (End d)))
            "end" _ _ v d r Hl Hr eq_refl).
  apply (Result_field_keeps_End (fun e => get (SumSent e) = get (SumSent (End d)))).
  apply (decode_struct_invariant End_field).
  apply (End_field_keeps_SumSent (fun m => get m = get (SumSent (End d)))).
  apply (decode_struct_invariant Summary_field). apply Hget.
Qed.

Lemma lacks_sum_received (get : IPerf3Summary -> float64) (field : string) :
  (forall x k v d d',
     (if key_is field k then is_null v else true) = true ->
     Summary_field k v d = Some d' -> get d = x -> get d' = x) ->
  forall v d r,
    lacks "sum_received" field v = true -> decode_Result v d = Some r ->
    get (SumReceived (End r)) = get (SumReceived (End d)).
Proof.
  intros Hget v d r Hl Hr.
  refine (decode_struct_invariant Result_field
            (fun r' => get (SumReceived (End r')) = get (SumReceived (End d)))
            "end" _ _ v d r Hl Hr eq_refl).
  apply (Result_field_keeps_End
           (fun e => get (SumReceived e) = get (SumReceived (End d)))).
  apply (decode_struct_invariant End_field).
  apply (End_field_keeps_SumReceived (fun m => get m = get (SumReceived (End d)))).
  apply (decode_struct_invariant Summary_field). apply Hget.
Qed.

Lemma no_error_message_decoded (v : json) (d r : IPerf3Result) :
  no_error_message v = true -> decode_Result v d = Some r ->
  Error d = "" -> Error r = "".
Proof.
  intros Hn Hr.
  apply (decode_struct_invariant Result_field (fun r' => Error r' = "") "error" _
           Result_field_keeps_no_Error v d r Hn Hr).
Qed.

End DecodeFacts.

(** ** The model on concrete inputs *)

Example one_tenth_is_rounded_to_nearest :
  round_decimal prec64 emax64 false 1 (-1) = S754_finite false 7205759403792794 (-56).
Proof. vm_compute. reflexivity. Qed.

Example largest_float64_decodes_and_the_next_decimal_does_not :
  ParseFloat prec64 emax64 false 17976931348623157 292
  = Some (S754_finite false 9007199254740991 971)
  /\ ParseFloat prec64 emax64 false 17976931348623159 292 = None.
Proof. split; vm_compute; reflexivity. Qed.

Example counting_stops_at_2p53 : add (of_Z (2 ^ 53)) one = of_Z (2 ^ 53).
Proof. vm_compute. reflexivity. Qed.

Example keys_match_without_case :
  key_is "sum_sent" "SUM_Sent" = true /\ key_is "end" "ends" = false.
Proof. split; reflexivity. Qed.

Example scenario_A :
  ExecIPerf3 sys_report_A "127.0.0.1" "5201" = (Some result_A, None).
Proof. vm_compute. reflexivity. Qed.

Example scenario_B :
  ExecIPerf3 sys_exit_1 "127.0.0.1" "5201" = (None, Some (exec_ExitError (exited 1))).
Proof. reflexivity. Qed.

Example scenario_C :
  ExecIPerf3 (fun _ => Exits 0 "iperf3: error") "127.0.0.1" "5201"
  = (None, Some json_SyntaxError).
Proof. vm_compute. reflexivity. Qed.

Example an_array_is_not_a_report :
  ExecIPerf3 (fun _ => Exits 0 "[]") "127.0.0.1" "5201"
  = (None, Some json_UnmarshalTypeError).
Proof. vm_compute. reflexivity. Qed.

Example null_is_an_empty_report :
  ExecIPerf3 (fun _ => Exits 0 "null") "127.0.0.1" "5201"
  = (Some IPerf3Result_zero, None).
Proof. vm_compute. reflexivity. Qed.

Example a_later_member_is_stored_over_an_earlier_one :
  json_Unmarshal (q "{'error':'down','Error':''}") IPerf3Result_zero
  = inr IPerf3Result_zero.
Proof. vm_compute. reflexivity. Qed.

(** * The specification, statement by statement *)

(** C1 (as the code behaves). After a failed measurement, with a server
    label that is valid UTF-8, the scrape shows none of the four throughput
    and retransmit gauges, and the error gauge of the server exists in
    memory; but the error gauge is not among the registered vectors, so no
    scrape ever shows it. *)
Theorem C1_error_count_never_scraped
  (server port : string) (execInterval : Duration) (sys : System) (s : Sampler) :
  utf8_ValidString server = true ->
  fails server port sys = true ->
  exists s',
    pass server port execInterval sys s = Sleep s' (Second * 10)
    /\ scrape (metrics s') = []
    /\ is_Some (errorCount (metrics s') !! server)
    /\ forall lv v, ~ In (fqName c_errorCount, lv, v) (scrape (metrics s')).
Proof.
  intros Hv Hf. destruct (fails_true sys server port Hf) as [e He].
  exists (after_error server e s). split; [now apply pass_of_error |].
  split; [apply scrape_after_error |].
  split; [rewrite errorCount_after_error; eauto |].
  intros lv v. apply error_count_not_registered.
Qed.

Lemma C1_error_count_never_scraped_witness :
  utf8_ValidString "127.0.0.1" = true
  /\ fails "127.0.0.1" "5201" sys_exit_1 = true
  /\ exists s',
       pass "127.0.0.1" "5201" (300 * Second) sys_exit_1 Sampler_new
       = Sleep s' (Second * 10)
       /\ scrape (metrics s') = []
       /\ is_Some (errorCount (metrics s') !! "127.0.0.1")
       /\ forall lv v, ~ In (fqName c_errorCount, lv, v) (scrape (metrics s')).
Proof.
  split; [reflexivity |]. split; [reflexivity |].
  apply (C1_error_count_never_scraped "127.0.0.1" "5201" (300 * Second)
           sys_exit_1 Sampler_new); reflexivity.
Defined.

(** C2. Failures are told apart in this order, and each ends the call with
    an error and no report: a command that cannot be started or is killed
    by a signal is a launch failure; a command that exits with a status
    other than zero is an exit-status failure that holds the status,
    whatever it printed; with status zero, output that [json.Unmarshal]
    rejects is a parse failure; decoded output with a non-empty [error]
    field is a failure that reports that text. *)
Theorem C2_failure_classification (sys : System) (server port : string) :
  match sys (iperf3_command server port) with
  | StartFails _ | Signaled _ _ =>
      exists e, ExecIPerf3 sys server port = (None, Some e)
                /\ failure_of e = LaunchFailure
  | Exits code out =>
      if negb (code =? 0) then
        exists e, ExecIPerf3 sys server port = (None, Some e)
                  /\ failure_of e = ExitStatusFailure code
      else
        match json_Unmarshal out IPerf3Result_zero with
        | inl _ =>
            exists e, ExecIPerf3 sys server port = (None, Some e)
                      /\ failure_of e = ParseFailure
        | inr r =>
            if String.eqb (Error r) "" then
              ExecIPerf3 sys server port = (Some r, None)
            else
              exists e, ExecIPerf3 sys server port = (None, Some e)
                        /\ failure_of e = ToolReportedFailure (Error r)
        end
  end.
Proof.
  destruct (sys (iperf3_command server port)) as [reason | code out | sig out] eqn:E.
  - rewrite (ExecIPerf3_StartFails sys server port reason E). eauto.
  - destruct (Z.eqb_spec code 0) as [-> | Hne]; cbn [negb].
    + rewrite (ExecIPerf3_Exits_zero sys server port out E).
      destruct (json_Unmarshal out IPerf3Result_zero) as [e | r] eqn:Hu.
      * exists e. split; [reflexivity | exact (json_Unmarshal_error _ _ _ Hu)].
      * destruct (String.eqb (Error r) ""); [reflexivity | eauto].
    + rewrite (ExecIPerf3_Exits_nonzero sys server port code out Hne E). eauto.
  - rewrite (ExecIPerf3_Signaled sys server port sig out E). eauto.
Qed.

(** C3. After a successful measurement, with a server label that is valid
    UTF-8, the four gauges of the server hold exactly the four numbers of
    the decoded report, and the scrape shows exactly these for the server.
    After a second success they hold the numbers of the second report
    alone, and the error gauge is untouched. *)
Theorem C3_gauges_equal_report
  (server port : string) (execInterval : Duration)
  (sys sys' : System) (r r' : IPerf3Result) (s : Sampler) :
  utf8_ValidString server = true ->
  ExecIPerf3 sys server port = (Some r, None) ->
  ExecIPerf3 sys' server port = (Some r', None) ->
  exists s1 s2,
    pass server port execInterval sys s = Sleep s1 execInterval
    /\ gauges (metrics s1) server = Some (published r)
    /\ (forall name v,
          In (name, server, v) (scrape (metrics s1)) <-> In (name, v) (report_samples r))
    /\ pass server port execInterval sys' s1 = Sleep s2 execInterval
    /\ gauges (metrics s2) server = Some (published r')
    /\ (forall name v,
          In (name, server, v) (scrape (metrics s2)) <-> In (name, v) (report_samples r'))
    /\ errorCount (metrics s2) = errorCount (metrics s).
Proof.
  intros Hv Hr Hr'.
  exists (after_result server r s), (after_result server r' (after_result server r s)).
  split; [now apply pass_of_result |].
  split; [apply gauges_after_result |].
  split; [intros name v; apply scrape_after_result |].
  split; [now apply pass_of_result |].
  split; [apply gauges_after_result |].
  split; [intros name v; apply scrape_after_result | reflexivity].
Qed.

Lemma C3_gauges_equal_report_witness :
  utf8_ValidString "127.0.0.1" = true
  /\ ExecIPerf3 sys_report_A "127.0.0.1" "5201" = (Some result_A, None)
  /\ ExecIPerf3 sys_report_B "127.0.0.1" "5201" = (Some result_B, None)
  /\ exists s1 s2,
       pass "127.0.0.1" "5201" (300 * Second) sys_report_A Sampler_new
       = Sleep s1 (300 * Second)
       /\ gauges (metrics s1) "127.0.0.1"
          = Some (of_Z 1000000, of_Z 2, of_Z 950000, of_Z 0)
       /\ (forall name v,
             In (name, "127.0.0.1", v) (scrape (metrics s1))
             <-> In (name, v) (report_samples result_A))
       /\ pass "127.0.0.1" "5201" (300 * Second) sys_report_B s1
          = Sleep s2 (300 * Second)
       /\ gauges (metrics s2) "127.0.0.1" = Some (published result_B)
       /\ (forall name v,
             In (name, "127.0.0.1", v) (scrape (metrics s2))
             <-> In (name, v) (report_samples result_B))
       /\ errorCount (metrics s2) = errorCount (metrics Sampler_new).
Proof.
  split; [reflexivity |].
  split; [vm_compute; reflexivity |].
  split; [vm_compute; reflexivity |].
  apply (C3_gauges_equal_report "127.0.0.1" "5201" (300 * Second)
           sys_report_A sys_report_B result_A result_B Sampler_new).
  - reflexivity.
  - vm_compute; reflexivity.
  - vm_compute; reflexivity.
Defined.

(** C4. With a server label that is valid UTF-8, and as long as no more
    than [2^53] measurements have failed, the error gauge of the server
    holds the number of failed measurements so far; it
    does not exist before the first failure.  Right after a failed pass
    none of the four throughput and retransmit gauges exists.  Once the
    error gauge exists no later pass removes it or makes it smaller. *)
Theorem C4_error_counter_tallies_failures
  (server port : string) (execInterval : Duration) (syss : list System) :
  utf8_ValidString server = true ->
  Z.of_nat (failures server port syss) <= 2 ^ 53 ->
  exists s,
    loop server port execInterval syss Sampler_new = Some s
    /\ errorCount (metrics s) !! server = tally (failures server port syss)
    /\ (forall (before : list System) (sys : System),
          syss = (before ++ [sys])%list -> fails server port sys = true ->
          forall lv, absent (metrics s) lv)
    /\ (forall before after : list System,
          syss = (before ++ after)%list ->
          exists s0,
            loop server port execInterval before Sampler_new = Some s0
            /\ forall v,
                 errorCount (metrics s0) !! server = Some v ->
                 exists v', errorCount (metrics s) !! server = Some v'
                            /\ SFleb v v' = true).
Proof.
  intros Hv Hn.
  destruct (loop_errorCount server port execInterval Hv syss Hn) as (s & Hs & Hc).
  exists s. split; [exact Hs |]. split; [exact Hc |]. split.
  - intros before sys -> Hf lv.
    destruct (loop_total server port execInterval Hv before Sampler_new) as [s0 Hs0].
    rewrite (loop_snoc server port execInterval before sys _ s0 Hs0) in Hs.
    destruct (fails_true _ _ _ Hf) as [e He].
    rewrite (pass_of_error server port execInterval Hv sys s0 e He) in Hs.
    injection Hs as <-. apply absent_after_error.
  - intros before after ->.
    rewrite failures_app in Hn, Hc.
    destruct (loop_errorCount server port execInterval Hv before) as (s0 & Hs0 & Hc0);
      [lia |].
    exists s0. split; [exact Hs0 |].
    intros v Hg. rewrite Hc. rewrite Hc0 in Hg.
    apply (tally_le (failures server port before)); [lia | lia | exact Hg].
Qed.

Lemma C4_error_counter_tallies_failures_witness :
  utf8_ValidString "127.0.0.1" = true
  /\ Z.of_nat (failures "127.0.0.1" "5201"
                [sys_exit_1; sys_report_A; sys_unable_to_connect])
     <= 2 ^ 53
  /\ exists s,
       loop "127.0.0.1" "5201" (300 * Second)
         [sys_exit_1; sys_report_A; sys_unable_to_connect] Sampler_new = Some s
       /\ errorCount (metrics s) !! "127.0.0.1" = Some (of_Z 2)
       /\ absent (metrics s) "127.0.0.1".
Proof.
  assert (Hn : Z.of_nat (failures "127.0.0.1" "5201"
                           [sys_exit_1; sys_report_A; sys_unable_to_connect])
               <= 2 ^ 53) by (vm_compute; discriminate).
  split; [reflexivity |]. split; [exact Hn |].
  destruct (C4_error_counter_tallies_failures "127.0.0.1" "5201" (300 * Second)
              [sys_exit_1; sys_report_A; sys_unable_to_connect] eq_refl Hn)
    as (s & Hs & Hc & Habs & _).
  exists s. split; [exact Hs |]. split; [exact Hc |].
  apply (Habs [sys_exit_1; sys_report_A] sys_unable_to_connect); reflexivity.
Defined.

(** C5. With a server label that is valid UTF-8, after every completed
    pass each label value has either all four throughput and retransmit
    gauges, holding the four numbers of one report that a pass received, or
    none of them. *)
Theorem C5_all_four_or_none
  (server port : string) (execInterval : Duration) (syss : list System) :
  utf8_ValidString server = true ->
  exists s,
    loop server port execInterval syss Sampler_new = Some s
    /\ forall lv,
         absent (metrics s) lv
         \/ exists sys r,
              In sys syss
              /\ ExecIPerf3 sys server port = (Some r, None)
              /\ gauges (metrics s) lv = Some (published r).
Proof. intros Hv. now apply loop_gauges. Qed.

Lemma C5_all_four_or_none_witness :
  utf8_ValidString "127.0.0.1" = true
  /\ exists s,
       loop "127.0.0.1" "5201" (300 * Second)
         [sys_report_A; sys_exit_1; sys_report_B] Sampler_new = Some s
       /\ forall lv,
            absent (metrics s) lv
            \/ exists sys r,
                 In sys [sys_report_A; sys_exit_1; sys_report_B]
                 /\ ExecIPerf3 sys "127.0.0.1" "5201" = (Some r, None)
                 /\ gauges (metrics s) lv = Some (published r).
Proof.
  split; [reflexivity |].
  apply (C5_all_four_or_none "127.0.0.1" "5201" (300 * Second)
           [sys_report_A; sys_exit_1; sys_report_B]).
  reflexivity.
Defined.

(** C6. With a server label that is valid UTF-8, a failed pass sleeps ten
    seconds before the next attempt and a successful pass sleeps the
    configured interval, whatever the interval is; when the interval is
    longer than ten seconds, the sleep after a failure is the shorter. *)
Theorem C6_backoff_shorter_than_interval
  (server port : string) (execInterval : Duration)
  (sys_failing sys_succeeding : System) (s : Sampler) :
  utf8_ValidString server = true ->
  fails server port sys_failing = true ->
  fails server port sys_succeeding = false ->
  exists d_failure d_success,
    delay (pass server port execInterval sys_failing s) = Some d_failure
    /\ delay (pass server port execInterval sys_succeeding s) = Some d_success
    /\ d_failure = 10 * Second
    /\ d_success = execInterval
    /\ (10 * Second < execInterval -> d_failure < d_success).
Proof.
  intros Hv Hf Hs.
  destruct (fails_true _ _ _ Hf) as [e He].
  destruct (fails_false _ _ _ Hs) as [r Hr].
  exists (Second * 10), execInterval.
  rewrite (pass_of_error server port execInterval Hv _ s e He).
  rewrite (pass_of_result server port execInterval Hv _ s r Hr).
  cbn [delay]. repeat split; lia.
Qed.

Lemma C6_backoff_shorter_than_interval_witness :
  utf8_ValidString "127.0.0.1" = true
  /\ fails "127.0.0.1" "5201" sys_exit_1 = true
  /\ fails "127.0.0.1" "5201" sys_report_A = false
  /\ 10 * Second < 300 * Second
  /\ exists d_failure d_success,
       delay (pass "127.0.0.1" "5201" (300 * Second) sys_exit_1 Sampler_new)
       = Some d_failure
       /\ delay (pass "127.0.0.1" "5201" (300 * Second) sys_report_A Sampler_new)
          = Some d_success
       /\ d_failure = 10 * Second
       /\ d_success = 300 * Second
       /\ d_failure < d_success.
Proof.
  assert (Hs : fails "127.0.0.1" "5201" sys_report_A = false)
    by (vm_compute; reflexivity).
  assert (Hlt : 10 * Second < 300 * Second) by reflexivity.
  split; [reflexivity |]. split; [reflexivity |].
  split; [exact Hs |]. split; [exact Hlt |].
  destruct (C6_backoff_shorter_than_interval "127.0.0.1" "5201" (300 * Second)
              sys_exit_1 sys_report_A Sampler_new eq_refl eq_refl Hs)
    as (d1 & d2 & H1 & H2 & E1 & E2 & H).
  exists d1, d2. repeat split; try assumption. exact (H Hlt).
Defined.

(** C7. When the tool exits with status 0 and prints the object whose
    [error] is [unable to connect to server] and whose [end] is empty, the
    call fails with exactly that text as its error; with a server label
    that is valid UTF-8 the pass logs it, adds one to the error gauge of
    the server, leaves none of the four gauges in place whatever was there
    before, and sleeps ten seconds. *)
Theorem C7_tool_reported_error
  (sys : System) (server port : string) (execInterval : Duration) (s : Sampler) :
  sys (iperf3_command server port) = Exits 0 unable_to_connect ->
  ExecIPerf3 sys server port = (None, Some (errors_New "unable to connect to server"))
  /\ error_message (errors_New "unable to connect to server")
     = Some "unable to connect to server"
  /\ (utf8_ValidString server = true ->
      exists s',
        pass server port execInterval sys s = Sleep s' (Second * 10)
        /\ (forall lv, absent (metrics s') lv)
        /\ errorCount (metrics s') !! server
           = Some (add (default zero (errorCount (metrics s) !! server)) one)
        /\ logged s'
           = ("[ERROR] execute iperf3 with error:",
              errors_New "unable to connect to server") :: logged s).
Proof.
  intros E.
  assert (He : ExecIPerf3 sys server port
               = (None, Some (errors_New "unable to connect to server"))).
  { rewrite (ExecIPerf3_Exits_zero sys server port _ E). reflexivity. }
  split; [exact He |]. split; [reflexivity |]. intros Hv.
  exists (after_error server (errors_New "unable to connect to server") s).
  split; [now apply pass_of_error |].
  split; [intros lv; apply absent_after_error |].
  split; [apply errorCount_after_error | reflexivity].
Qed.

Lemma C7_tool_reported_error_witness :
  utf8_ValidString "127.0.0.1" = true
  /\ sys_unable_to_connect (iperf3_command "127.0.0.1" "5201")
     = Exits 0 unable_to_connect
  /\ ExecIPerf3 sys_unable_to_connect "127.0.0.1" "5201"
     = (None, Some (errors_New "unable to connect to server"))
  /\ exists s',
       pass "127.0.0.1" "5201" (300 * Second) sys_unable_to_connect Sampler_new
       = Sleep s' (Second * 10)
       /\ errorCount (metrics s') !! "127.0.0.1" = Some (of_Z 1)
       /\ logged s'
          = [("[ERROR] execute iperf3 with error:",
              errors_New "unable to connect to server")].
Proof.
  split; [reflexivity |]. split; [reflexivity |].
  destruct (C7_tool_reported_error sys_unable_to_connect "127.0.0.1" "5201"
              (300 * Second) Sampler_new eq_refl) as (Hx & _ & Hpass).
  split; [exact Hx |].
  destruct (Hpass eq_refl) as (s' & Hs' & _ & Hc & Hl).
  exists s'. split; [exact Hs' |]. split; [| exact Hl].
  rewrite Hc. vm_compute. reflexivity.
Defined.

(** C8 (as worded) fails: with a [-server] value that is not valid UTF-8
    the first failed measurement ends the process, through the panic of
    [WithLabelValues] in the goroutine, although the interval parses and
    the listener keeps serving. *)
Lemma C8_invalid_server_label_panics :
  ~ exits_only_on_bad_interval_or_listener.
Proof.
  intros H.
  destruct (H parse_5m Flags_server_0xFF None [sys_exit_1]) as [_ Hp].
  apply Hp. vm_compute. reflexivity.
Qed.

(** C8 (amended). When the [-server] value is valid UTF-8, the process ends
    through [log.Fatal] exactly when the interval flag does not parse or
    [ListenAndServe] returns its error.  The goroutine never ends the
    process: it never panics, and while the process serves it has got
    through every pass given to it, having logged each failed measurement
    and gone on. *)
Theorem C8_exit_behaviour
  (time_ParseDuration : string -> error + Duration)
  (flags : Flags) (listen : option error) (syss : list System) :
  utf8_ValidString (server flags) = true ->
  (is_fatal (main time_ParseDuration flags listen syss) = true
   <-> (exists e, time_ParseDuration (interval flags) = inl e)
       \/ (exists e, listen = Some e))
  /\ main time_ParseDuration flags listen syss <> Panicked
  /\ (forall execInterval,
        time_ParseDuration (interval flags) = inr execInterval ->
        listen = None ->
        exists s,
          main time_ParseDuration flags listen syss = Serving registered s
          /\ loop (server flags) (port flags) execInterval syss Sampler_new = Some s
          /\ length (logged s) = failures (server flags) (port flags) syss).
Proof.
  intros Hv. unfold main.
  destruct (time_ParseDuration (interval flags)) as [e | d] eqn:Hp.
  - split; [| split].
    + split; [intros _; left; eauto | reflexivity].
    + discriminate.
    + intros execInterval [=].
  - destruct (loop_total (server flags) (port flags) d Hv syss Sampler_new) as [s Hs].
    rewrite Hs. destruct listen as [e |].
    + split; [| split].
      * split; [intros _; right; eauto | reflexivity].
      * discriminate.
      * intros execInterval _ [=].
    + split; [| split].
      * split; [discriminate | intros [[e [=]] | [e [=]]]].
      * discriminate.
      * intros execInterval [= <-] _. exists s.
        split; [reflexivity |]. split; [exact Hs |].
        now apply (logged_length (server flags) (port flags) d Hv).
Qed.

Lemma C8_exit_behaviour_witness :
  utf8_ValidString (server Flags_default) = true
  /\ parse_5m (interval Flags_default) = inr (300 * Second)
  /\ exists s,
       main parse_5m Flags_default None [sys_exit_1; sys_unable_to_connect; sys_exit_3]
       = Serving registered s
       /\ length (logged s) = 3%nat.
Proof.
  split; [reflexivity |]. split; [reflexivity |].
  destruct (proj2 (proj2 (C8_exit_behaviour parse_5m Flags_default None
                            [sys_exit_1; sys_unable_to_connect; sys_exit_3]
                            eq_refl))
              (300 * Second) eq_refl eq_refl)
    as (s & Hm & _ & Hl).
  exists s. split; [exact Hm | exact Hl].
Defined.

(** C9. The check [exitCode != 0] after a successful [Run] never fires:
    whenever [Run] returns no error the exit code is zero.  A command that
    exits with a status other than zero already makes [Run] return an
    [ExitError], which [ExecIPerf3] hands on; its text is
    [exit status N], not [exit code: N].  An error made of a text comes only
    from the [error] field of decoded output. *)
Theorem C9_exit_code_check_unreachable (sys : System) (server port : string) :
  (forall cmd cmd', Run sys cmd = (cmd', None) -> ExitCode (ProcessState_of cmd') = 0)
  /\ (forall code out,
        code <> 0 -> sys (iperf3_command server port) = Exits code out ->
        ExecIPerf3 sys server port = (None, Some (exec_ExitError (exited code)))
        /\ error_message (exec_ExitError (exited code))
           = Some ("exit status " +:+ pretty code)
        /\ error_message (exec_ExitError (exited code))
           <> error_message (fmt_Errorf_d "exit code: " code))
  /\ (forall text,
        ExecIPerf3 sys server port = (None, Some (errorString text)) ->
        exists out r,
          sys (iperf3_command server port) = Exits 0 out
          /\ json_Unmarshal out IPerf3Result_zero = inr r
          /\ Error r = text).
Proof.
  split; [| split].
  - intros cmd cmd'. apply Run_nil.
  - intros code out Hne E. split; [| split].
    + exact (ExecIPerf3_Exits_nonzero sys server port code out Hne E).
    + reflexivity.
    + cbn. intros [= H]. 
  - intros text H.
    destruct (sys (iperf3_command server port)) as [reason | code out | sig out] eqn:E.
    + rewrite (ExecIPerf3_StartFails sys server port reason E) in H. discriminate.
    + destruct (Z.eq_dec code 0) as [-> | Hne].
      * rewrite (ExecIPerf3_Exits_zero sys server port out E) in H.
        exists out.
        destruct (json_Unmarshal out IPerf3Result_zero) as [e | r] eqn:Hu.
        -- injection H as ->. apply json_Unmarshal_error in Hu. discriminate.
        -- exists r. destruct (String.eqb (Error r) ""); [discriminate |].
           injection H as <-. auto.
      * rewrite (ExecIPerf3_Exits_nonzero sys server port code out Hne E) in H.
        discriminate.
    + rewrite (ExecIPerf3_Signaled sys server port sig out E) in H. discriminate.
Qed.

Lemma C9_exit_code_check_unreachable_witness :
  ExitCode (ProcessState_of
              (fst (Run sys_exit_0_empty_object (exec_Command "iperf3" [])))) = 0
  /\ ExecIPerf3 sys_exit_3 "127.0.0.1" "5201"
     = (None, Some (exec_ExitError (exited 3))).
Proof.
  split.
  - apply (proj1 (C9_exit_code_check_unreachable sys_exit_0_empty_object "" "")
             (exec_Command "iperf3" [])).
    reflexivity.
  - apply (proj1 (proj2 (C9_exit_code_check_unreachable sys_exit_3 "127.0.0.1" "5201"))
             3 "").
    + discriminate.
    + reflexivity.
Defined.

(** C10 (as worded) fails: the output [mistyped_report] is valid JSON,
    lacks three of the four numbers and gives no error message, and the
    measurement fails on it with an error of [encoding/json]. *)
Lemma C10_mistyped_member_is_a_parse_failure :
  ~ succeeds_on_every_incomplete_output.
Proof.
  intros H.
  destruct (H "127.0.0.1" "5201" mistyped_report
              (JObject [("end", JObject [("sum_sent",
                 JObject [("bits_per_second", JString "fast")])])]))
    as [r Hr]; [reflexivity | reflexivity | reflexivity |].
  vm_compute in Hr. discriminate Hr.
Qed.

(** C10 (amended). When the tool exits with status 0 and prints a JSON
    object (or [null]) in which every member that names a field of the
    report holds [null] or a value of that field's JSON type (an object for
    [end], [sum_sent] and [sum_received]; a number in the range of float64
    for the float fields; a plain integer in the range of [int] for
    [bytes]; a string for [error]), and in which every [error] member is
    empty or [null], the measurement succeeds and, the server label being
    valid UTF-8, the pass publishes the decoded numbers; each of the four
    numbers that the output does not supply is zero. *)
Theorem C10_missing_fields_default_to_zero
  (sys : System) (server port : string) (execInterval : Duration)
  (out : string) (v : json) (s : Sampler) :
  sys (iperf3_command server port) = Exits 0 out ->
  parse out = Some v ->
  report_typed v = true ->
  no_error_message v = true ->
  exists r,
    ExecIPerf3 sys server port = (Some r, None)
    /\ (utf8_ValidString server = true ->
        exists s',
          pass server port execInterval sys s = Sleep s' execInterval
          /\ gauges (metrics s') server = Some (published r))
    /\ (lacks "sum_sent" "bits_per_second" v = true ->
        BitsPerSecond (SumSent (End r)) = zero)
    /\ (lacks "sum_sent" "retransmits" v = true ->
        Retransmits (SumSent (End r)) = zero)
    /\ (lacks "sum_received" "bits_per_second" v = true ->
        BitsPerSecond (SumReceived (End r)) = zero)
    /\ (lacks "sum_received" "retransmits" v = true ->
        Retransmits (SumReceived (End r)) = zero).
Proof.
  intros E Hp Ht Hn.
  destruct (decode_Result_typed v IPerf3Result_zero Ht) as [r Hr].
  assert (He : Error r = "")
    by exact (no_error_message_decoded v _ r Hn Hr eq_refl).
  assert (Hx : ExecIPerf3 sys server port = (Some r, None)).
  { rewrite (ExecIPerf3_Exits_zero sys server port out E).
    unfold json_Unmarshal. rewrite Hp, Hr, He. reflexivity. }
  exists r.
  split; [exact Hx |].
  split.
  { intros Hv. exists (after_result server r s).
    split; [now apply pass_of_result | apply gauges_after_result]. }
  split; [| split; [| split]]; intros Hl.
  - exact (lacks_sum_sent BitsPerSecond _ Summary_field_keeps_BitsPerSecond _ _ _ Hl Hr).
  - exact (lacks_sum_sent Retransmits _ Summary_field_keeps_Retransmits _ _ _ Hl Hr).
  - exact (lacks_sum_received BitsPerSecond _ Summary_field_keeps_BitsPerSecond
             _ _ _ Hl Hr).
  - exact (lacks_sum_received Retransmits _ Summary_field_keeps_Retransmits
             _ _ _ Hl Hr).
Qed.

Lemma C10_missing_fields_default_to_zero_witness :
  utf8_ValidString "127.0.0.1" = true
  /\ sys_empty_end (iperf3_command "127.0.0.1" "5201") = Exits 0 empty_end
  /\ parse empty_end = Some (JObject [("end", JObject [])])
  /\ report_typed (JObject [("end", JObject [])]) = true
  /\ no_error_message (JObject [("end", JObject [])]) = true
  /\ lacks "sum_sent" "bits_per_second" (JObject [("end", JObject [])]) = true
  /\ exists r s',
       ExecIPerf3 sys_empty_end "127.0.0.1" "5201" = (Some r, None)
       /\ pass "127.0.0.1" "5201" (300 * Second) sys_empty_end Sampler_new
          = Sleep s' (300 * Second)
       /\ gauges (metrics s') "127.0.0.1" = Some (zero, zero, zero, zero).
Proof.
  split; [reflexivity |].
  split; [reflexivity |]. split; [reflexivity |]. split; [reflexivity |].
  split; [reflexivity |]. split; [reflexivity |].
  destruct (C10_missing_fields_default_to_zero sys_empty_end "127.0.0.1" "5201"
              (300 * Second) empty_end (JObject [("end", JObject [])]) Sampler_new
              eq_refl eq_refl eq_refl eq_refl)
    as (r & Hx & Hp & H1 & H2 & H3 & H4).
  destruct (Hp eq_refl) as (s' & Hpass & Hg).
  exists r, s'. split; [exact Hx |]. split; [exact Hpass |].
  rewrite Hg. unfold published.
  rewrite (H1 eq_refl), (H2 eq_refl), (H3 eq_refl), (H4 eq_refl). reflexivity.
Defined.

(** * Further properties of the code *)

(** ** What [ExecIPerf3] returns *)

Lemma ExecIPerf3_report_no_error
  (sys : System) (server port : string) (r : IPerf3Result) :
  ExecIPerf3 sys server port = (Some r, None) -> Error r = "".
Proof.
  destruct (sys (iperf3_command server port)) as [reason | code out | sig out] eqn:E.
  - rewrite (ExecIPerf3_StartFails sys server port reason E). discriminate.
  - destruct (Z.eq_dec code 0) as [-> | Hne].
    + rewrite (ExecIPerf3_Exits_zero sys server port out E).
      destruct (json_Unmarshal out IPerf3Result_zero) as [e | r']; [discriminate |].
      destruct (String.eqb (Error r') "") eqn:He; [| discriminate].
      intros [= <-]. now apply String.eqb_eq.
    + rewrite (ExecIPerf3_Exits_nonzero sys server port code out Hne E). discriminate.
  - rewrite (ExecIPerf3_Signaled sys server port sig out E). discriminate.
Qed.

(** ** The vectors hold gauges for the server only *)

Section VectorFacts.

Variables server port : string.
Variable execInterval : Duration.
Hypothesis server_valid : utf8_ValidString server = true.

Lemma small_insert (v : float64) (vec : gmap string float64) :
  small server vec -> <[server := v]> vec = {[server := v]}.
Proof.
  intros [-> | [w ->]]; [apply insert_empty | apply insert_singleton_eq].
Qed.

Lemma small_lookup_ne (vec : gmap string float64) (lv : string) :
  small server vec -> lv <> server -> vec !! lv = None.
Proof.
  intros [-> | [w ->]] Hne; [apply lookup_empty |].
  apply lookup_singleton_ne. congruence.
Qed.

Lemma all_small_after_error (e : error) (s : Sampler) :
  all_small server (metrics s) -> all_small server (metrics (after_error server e s)).
Proof.
  intros Hs c. pose proof (Hs c_errorCount) as He.
  destruct c; cbn; try (now left).
  right. eexists. apply small_insert. exact He.
Qed.

Lemma all_small_after_result (r : IPerf3Result) (s : Sampler) :
  all_small server (metrics s) -> all_small server (metrics (after_result server r s)).
Proof.
  intros Hs c. pose proof (Hs c) as Hc.
  destruct c; cbn in *; try exact Hc;
    right; eexists; apply small_insert; exact Hc.
Qed.

Lemma loop_all_small (syss : list System) (s s' : Sampler) :
  all_small server (metrics s) ->
  loop server port execInterval syss s = Some s' ->
  all_small server (metrics s').
Proof.
  revert s. induction syss as [| sys syss IH]; intros s Hs; cbn [loop].
  - now intros [= <-].
  - destruct (ExecIPerf3_shape sys server port) as [[e He] | [r Hr]].
    + rewrite (pass_of_error server port execInterval server_valid sys s e He).
      apply IH. now apply all_small_after_error.
    + rewrite (pass_of_result server port execInterval server_valid sys s r Hr).
      apply IH. now apply all_small_after_result.
Qed.

Lemma all_small_new : all_small server (metrics Sampler_new).
Proof. intros c. left. now destruct c. Qed.

Lemma scrape_small_after_result (r : IPerf3Result) (s : Sampler) :
  all_small server (metrics s) ->
  scrape (metrics (after_result server r s)) = report_scrape server r.
Proof.
  intros Hs.
  unfold scrape, Gather, registered, collect, after_result. cbn.
  rewrite (small_insert _ _ (Hs c_sentBitPerSec)),
    (small_insert _ _ (Hs c_sentRetransmits)),
    (small_insert _ _ (Hs c_receivedBitPerSec)),
    (small_insert _ _ (Hs c_receivedRetransmits)).
  rewrite !map_to_list_singleton. vm_compute. reflexivity.
Qed.

(** The lines of the log, the latest first, are the errors of the passes. *)
Lemma loop_logged (syss : list System) (s s' : Sampler) :
  loop server port execInterval syss s = Some s' ->
  logged s'
  = (rev (map (pair "[ERROR] execute iperf3 with error:") (errors_of server port syss))
     ++ logged s)%list.
Proof.
  revert s. induction syss as [| sys syss IH]; intros s; cbn [loop].
  - now intros [= <-].
  - unfold errors_of. cbn [omap list_omap]. fold (errors_of server port syss).
    destruct (ExecIPerf3_shape sys server port) as [[e He] | [r Hr]].
    + rewrite (pass_of_error server port execInterval server_valid sys s e He), He.
      intros H. rewrite (IH _ H). cbn. now rewrite <- app_assoc.
    + rewrite (pass_of_result server port execInterval server_valid sys s r Hr), Hr.
      intros H. now rewrite (IH _ H).
Qed.

Lemma failures_cons (sys : System) (syss : list System) :
  failures server port (sys :: syss)
  = ((if fails server port sys then 1 else 0) + failures server port syss)%nat.
Proof. unfold failures. cbn. now destruct (fails server port sys). Qed.

Lemma slept_spec (syss : list System) (s : Sampler) :
  slept server port execInterval syss s
  = 10 * Second * Z.of_nat (failures server port syss)
    + Z.max 0 execInterval
      * (Z.of_nat (length syss) - Z.of_nat (failures server port syss)).
Proof.
  revert s. induction syss as [| sys syss IH]; intros s; [cbn; lia |].
  rewrite failures_cons. cbn [slept length].
  destruct (fails server port sys) eqn:Hf.
  - destruct (fails_true sys server port Hf) as [e He].
    rewrite (pass_of_error server port execInterval server_valid sys s e He), IH.
    unfold time_Sleep, Second. nia.
  - destruct (fails_false sys server port Hf) as [r Hr].
    rewrite (pass_of_result server port execInterval server_valid sys s r Hr), IH.
    unfold time_Sleep. nia.
Qed.

Lemma loop_saturated (syss : list System) (s s' : Sampler) :
  errorCount (metrics s) !! server = Some (of_Z (2 ^ 53)) ->
  loop server port execInterval syss s = Some s' ->
  errorCount (metrics s') !! server = Some (of_Z (2 ^ 53)).
Proof.
  revert s. induction syss as [| sys syss IH]; intros s Hs; cbn [loop].
  - now intros [= <-].
  - destruct (ExecIPerf3_shape sys server port) as [[e He] | [r Hr]].
    + rewrite (pass_of_error server port execInterval server_valid sys s e He).
      apply IH. rewrite errorCount_after_error, Hs. reflexivity.
    + rewrite (pass_of_result server port execInterval server_valid sys s r Hr).
      apply IH. exact Hs.
Qed.

End VectorFacts.

(** ** More on decoding *)

Section MoreDecodeFacts.










(** *** Members that name no field *)

Lemma decode_members_filter {A : Type}
  (field : string -> json -> A -> option A) (keep : string -> bool)
  (ms : list (string * json)) (d : A) :
  (forall k v d', keep k = false -> field k v d' = Some d') ->
  decode_members field (List.filter (fun kv => keep (fst kv)) ms) d
  = decode_members field ms d.
Proof.
  intros Hskip. revert d. induction ms as [| [k v] ms IH]; intros d; [reflexivity |].
  cbn. destruct (keep k) eqn:Hk; cbn.
  - destruct (field k v d); [apply IH | reflexivity].
  - rewrite (Hskip k v d Hk). apply IH.
Qed.

Lemma decode_members_map {A : Type}
  (field : string -> json -> A -> option A)
  (g : string * json -> string * json) (ms : list (string * json)) (d : A) :
  (forall kv d', field (fst (g kv)) (snd (g kv)) d' = field (fst kv) (snd kv) d') ->
  decode_members field (map g ms) d = decode_members field ms d.
Proof.
  intros Hg. revert d. induction ms as [| [k v] ms IH]; intros d; [reflexivity |].
  cbn [map decode_members].
  destruct (g (k, v)) as [k' v'] eqn:E.
  pose proof (Hg (k, v) d) as H. rewrite E in H. cbn in H. rewrite H.
  destruct (field k v d); [apply IH | reflexivity].
Qed.

Lemma Summary_field_skips (k : string) (v : json) (d : IPerf3Summary) :
  names_field Summary_fields k = false -> Summary_field k v d = Some d.
Proof.
  unfold names_field, Summary_fields, Summary_field. cbn [existsb].
  intros H. repeat (apply orb_false_elim in H as [-> H]). reflexivity.
Qed.

Lemma End_field_skips (k : string) (v : json) (d : IPerf3End) :
  names_field End_fields k = false -> End_field k v d = Some d.
Proof.
  unfold names_field, End_fields, End_field. cbn [existsb].
  intros H. repeat (apply orb_false_elim in H as [-> H]). reflexivity.
Qed.

Lemma Result_field_skips (k : string) (v : json) (d : IPerf3Result) :
  names_field Result_fields k = false -> Result_field k v d = Some d.
Proof.
  unfold names_field, Result_fields, Result_field. cbn [existsb].
  intros H. repeat (apply orb_false_elim in H as [-> H]). reflexivity.
Qed.

Lemma decode_Summary_prune (v : json) (d : IPerf3Summary) :
  decode_Summary (prune_Summary v) d = decode_Summary v d.
Proof.
  destruct v as [| | | | | ms]; try reflexivity.
  apply (decode_members_filter Summary_field (names_field Summary_fields)).
  intros k v d'. apply Summary_field_skips.
Qed.

Lemma decode_End_prune (v : json) (d : IPerf3End) :
  decode_End (prune_End v) d = decode_End v d.
Proof.
  destruct v as [| | | | | ms]; try reflexivity.
  unfold prune_End, on_members, decode_End, decode_struct.
  rewrite decode_members_map.
  - apply (decode_members_filter End_field (names_field End_fields)).
    intros k v d'. apply End_field_skips.
  - intros [k x] d'. cbn [fst snd]. unfold End_field.
    now rewrite !decode_Summary_prune.
Qed.

Lemma decode_Result_prune (v : json) (d : IPerf3Result) :
  decode_Result (prune_Result v) d = decode_Result v d.
Proof.
  destruct v as [| | | | | ms]; try reflexivity.
  unfold prune_Result, on_members, decode_Result, decode_struct.
  rewrite decode_members_map.
  - apply (decode_members_filter Result_field (names_field Result_fields)).
    intros k v d'. apply Result_field_skips.
  - intros [k x] d'. cbn [fst snd]. unfold Result_field.
    destruct (key_is "error" k); [reflexivity |].
    now rewrite decode_End_prune.
Qed.

(** *** Keys that differ in letter case *)

Section Rekey.

Variable f : string -> string.
Hypothesis f_folds : forall k, foldName (f k) = foldName k.

Lemma key_is_rekey (field k : string) : key_is field (f k) = key_is field k.
Proof. unfold key_is. now rewrite f_folds. Qed.

Lemma decode_Summary_rekey (v : json) (d : IPerf3Summary) :
  decode_Summary (rekey_Summary f v) d = decode_Summary v d.
Proof.
  destruct v as [| | | | | ms]; try reflexivity.
  apply decode_members_map. intros [k x] d'. cbn [fst snd]. unfold Summary_field.
  now rewrite !key_is_rekey.
Qed.

Lemma decode_End_rekey (v : json) (d : IPerf3End) :
  decode_End (rekey_End f v) d = decode_End v d.
Proof.
  destruct v as [| | | | | ms]; try reflexivity.
  apply decode_members_map. intros [k x] d'. cbn [fst snd]. unfold End_field.
  rewrite !key_is_rekey.
  destruct (key_is "sum_sent" k); cbn [orb]; [now rewrite decode_Summary_rekey |].
  destruct (key_is "sum_received" k); [now rewrite decode_Summary_rekey | reflexivity].
Qed.

Lemma decode_Result_rekey (v : json) (d : IPerf3Result) :
  decode_Result (rekey_Result f v) d = decode_Result v d.
Proof.
  destruct v as [| | | | | ms]; try reflexivity.
  apply decode_members_map. intros [k x] d'. cbn [fst snd]. unfold Result_field.
  rewrite !key_is_rekey.
  destruct (key_is "error" k); [reflexivity |].
  destruct (key_is "end" k); [now rewrite decode_End_rekey | reflexivity].
Qed.

End Rekey.

(** *** Decoded numbers are finite *)

Lemma decode_struct_keeps {A : Type}
  (field : string -> json -> A -> option A) (P : A -> Prop) :
  (forall k v d d', field k v d = Some d' -> P d -> P d') ->
  forall v d d', decode_struct field v d = Some d' -> P d -> P d'.
Proof.
  intros Hfield v d d'. destruct v as [| | | | | ms]; cbn; try discriminate.
  - now intros [= <-].
  - revert d. induction ms as [| [k x] ms IH]; intros d; cbn.
    + now intros [= <-].
    + destruct (field k x d) as [d1 |] eqn:Hd1; [| discriminate].
      intros Hd' Hd. apply (IH d1 Hd'). exact (Hfield k x d d1 Hd1 Hd).
Qed.

Lemma decode_float_finite (prec emax : Z) (v : json) (d x : spec_float) :
  decode_float prec emax v d = Some x -> is_finite d = true -> is_finite x = true.
Proof.
  destruct v; cbn; try discriminate.
  - now intros [= <-].
  - unfold ParseFloat.
    destruct (is_finite (round_decimal prec emax (num_neg n) (num_mant n) (num_exp10 n)))
      eqn:Hf; [| discriminate].
    now intros [= <-].
Qed.

Lemma Summary_field_finite (k : string) (v : json) (d d' : IPerf3Summary) :
  Summary_field k v d = Some d' -> finite_summary d -> finite_summary d'.
Proof.
  unfold Summary_field, decode_float32, decode_float64, finite_summary.
  intros Hf [H1 H2].
  repeat case_match; simplify_option_eq; cbn; split;
    eauto using decode_float_finite.
Qed.

Lemma End_field_finite (k : string) (v : json) (d d' : IPerf3End) :
  End_field k v d = Some d' ->
  finite_summary (SumSent d) /\ finite_summary (SumReceived d) ->
  finite_summary (SumSent d') /\ finite_summary (SumReceived d').
Proof.
  unfold End_field, decode_Summary. intros Hf [H1 H2].
  pose proof (decode_struct_keeps Summary_field finite_summary Summary_field_finite)
    as Hkeep.
  repeat case_match; simplify_option_eq; cbn; split; eauto.
Qed.

Lemma Result_field_finite (k : string) (v : json) (d d' : IPerf3Result) :
  Result_field k v d = Some d' ->
  finite_summary (SumSent (End d)) /\ finite_summary (SumReceived (End d)) ->
  finite_summary (SumSent (End d')) /\ finite_summary (SumReceived (End d')).
Proof.
  unfold Result_field, decode_End. intros Hf H.
  repeat case_match; simplify_option_eq; cbn; try exact H.
  eapply (decode_struct_keeps End_field
            (fun e => finite_summary (SumSent e) /\ finite_summary (SumReceived e))
            End_field_finite); eauto.
Qed.

Lemma ExecIPerf3_finite (sys : System) (server port : string) (r : IPerf3Result) :
  ExecIPerf3 sys server port = (Some r, None) -> finite_report r.
Proof.
  destruct (sys (iperf3_command server port)) as [reason | code out | sig out] eqn:E.
  - rewrite (ExecIPerf3_StartFails sys server port reason E). discriminate.
  - destruct (Z.eq_dec code 0) as [-> | Hne].
    + rewrite (ExecIPerf3_Exits_zero sys server port out E).
      unfold json_Unmarshal.
      destruct (parse out) as [v |]; [| discriminate].
      destruct (decode_Result v IPerf3Result_zero) as [r' |] eqn:Hd; [| discriminate].
      destruct (String.eqb (Error r') ""); [| discriminate].
      intros [= <-].
      assert (H : finite_summary (SumSent (End r'))
                  /\ finite_summary (SumReceived (End r'))).
      { eapply (decode_struct_keeps Result_field
                  (fun x => finite_summary (SumSent (End x))
                            /\ finite_summary (SumReceived (End x)))
                  Result_field_finite); [exact Hd |].
        repeat split. }
      destruct H as [[? ?] [? ?]]. repeat split; assumption.
    + rewrite (ExecIPerf3_Exits_nonzero sys server port code out Hne E). discriminate.
  - rewrite (ExecIPerf3_Signaled sys server port sig out E). discriminate.
Qed.

End MoreDecodeFacts.

(** ** The further properties *)

(** X1. [ExecIPerf3] returns either an error and no report, or a report
    and no error; a report it returns has an empty [Error].  So the loop,
    which reads the report whenever the error is nil, never reads a nil
    report: a pass panics exactly when the server label is not valid UTF-8,
    which is when [WithLabelValues] panics, after a failed measurement as
    after a successful one. *)
Theorem X1_report_or_error (sys : System) (server port : string) :
  ((exists e, ExecIPerf3 sys server port = (None, Some e))
   \/ (exists r, ExecIPerf3 sys server port = (Some r, None) /\ Error r = ""))
  /\ forall execInterval s,
       pass server port execInterval sys s = Panic
       <-> utf8_ValidString server = false.
Proof.
  split.
  - destruct (ExecIPerf3_shape sys server port) as [[e He] | [r Hr]]; [eauto |].
    right. exists r. split; [exact Hr |].
    exact (ExecIPerf3_report_no_error sys server port r Hr).
  - intros execInterval s.
    destruct (utf8_ValidString server) eqn:Hv.
    + destruct (pass_sleeps server port execInterval Hv sys s) as (s' & d & ->).
      split; discriminate.
    + split; [reflexivity | intros _].
      unfold pass.
      destruct (ExecIPerf3_shape sys server port) as [[e He] | [r Hr]].
      * rewrite He. unfold on_error, GaugeVec.Add. now rewrite Hv.
      * rewrite Hr. unfold on_result, GaugeVec.Set_. now rewrite Hv.
Qed.



(** X3. Members that name no field of the report do not matter: two
    outputs of which one is the other without such members, at the top, in
    [end] and in the two summaries, give the same result and the same
    pass. *)
Theorem X3_unnamed_members_are_ignored
  (sys sys' : System) (server port out out' : string) (v : json)
  (execInterval : Duration) (s : Sampler) :
  sys (iperf3_command server port) = Exits 0 out ->
  sys' (iperf3_command server port) = Exits 0 out' ->
  parse out = Some v ->
  parse out' = Some (prune_Result v) ->
  ExecIPerf3 sys server port = ExecIPerf3 sys' server port
  /\ pass server port execInterval sys s = pass server port execInterval sys' s.
Proof.
  intros E E' Hp Hp'.
  assert (H : ExecIPerf3 sys server port = ExecIPerf3 sys' server port).
  { rewrite (ExecIPerf3_Exits_zero sys server port out E),
      (ExecIPerf3_Exits_zero sys' server port out' E').
    unfold json_Unmarshal. now rewrite Hp, Hp', decode_Result_prune. }
  split; [exact H |]. unfold pass. now rewrite H.
Qed.

Lemma X3_unnamed_members_are_ignored_witness :
  exists v,
    parse full_output = Some v
    /\ parse pruned_output = Some (prune_Result v)
    /\ ExecIPerf3 sys_full_output "127.0.0.1" "5201"
       = ExecIPerf3 sys_pruned_output "127.0.0.1" "5201".
Proof.
  assert (Hv : exists v, parse full_output = Some v
                         /\ parse pruned_output = Some (prune_Result v)).
  { eexists. split; vm_compute; reflexivity. }
  destruct Hv as (v & Hp & Hp'). exists v.
  split; [exact Hp |]. split; [exact Hp' |].
  exact (proj1 (X3_unnamed_members_are_ignored sys_full_output sys_pruned_output
                  "127.0.0.1" "5201" full_output pruned_output v (300 * Second)
                  Sampler_new eq_refl eq_refl Hp Hp')).
Defined.

(** X4. Keys are matched without regard to letter case: when every key of
    the output, at the top, in [end] and in the two summaries, is replaced
    by a key with the same folded name, the result and the pass are the
    same. *)
Theorem X4_letter_case_of_keys_is_ignored
  (f : string -> string)
  (sys sys' : System) (server port out out' : string) (v : json)
  (execInterval : Duration) (s : Sampler) :
  (forall k, foldName (f k) = foldName k) ->
  sys (iperf3_command server port) = Exits 0 out ->
  sys' (iperf3_command server port) = Exits 0 out' ->
  parse out = Some v ->
  parse out' = Some (rekey_Result f v) ->
  ExecIPerf3 sys server port = ExecIPerf3 sys' server port
  /\ pass server port execInterval sys s = pass server port execInterval sys' s.
Proof.
  intros Hf E E' Hp Hp'.
  assert (H : ExecIPerf3 sys server port = ExecIPerf3 sys' server port).
  { rewrite (ExecIPerf3_Exits_zero sys server port out E),
      (ExecIPerf3_Exits_zero sys' server port out' E').
    unfold json_Unmarshal. now rewrite Hp, Hp', (decode_Result_rekey f Hf). }
  split; [exact H |]. unfold pass. now rewrite H.
Qed.

Lemma other_case_folds (k : string) : foldName (other_case k) = foldName k.
Proof.
  unfold other_case.
  destruct (String.eqb_spec k "end") as [-> | _]; [vm_compute; reflexivity |].
  destruct (String.eqb_spec k "sum_sent") as [-> | _]; [vm_compute; reflexivity |].
  destruct (String.eqb_spec k "sum_received") as [-> | _];
    [vm_compute; reflexivity |].
  destruct (String.eqb_spec k "bits_per_second") as [-> | _];
    [vm_compute; reflexivity |].
  destruct (String.eqb_spec k "retransmits") as [-> | _];
    [vm_compute; reflexivity | reflexivity].
Qed.

Lemma X4_letter_case_of_keys_is_ignored_witness :
  exists v,
    parse report_A = Some v
    /\ parse report_A_other_case = Some (rekey_Result other_case v)
    /\ ExecIPerf3 sys_report_A "127.0.0.1" "5201"
       = ExecIPerf3 sys_report_A_other_case "127.0.0.1" "5201".
Proof.
  assert (Hv : exists v, parse report_A = Some v
                         /\ parse report_A_other_case
                            = Some (rekey_Result other_case v)).
  { eexists. split; vm_compute; reflexivity. }
  destruct Hv as (v & Hp & Hp'). exists v.
  split; [exact Hp |]. split; [exact Hp' |].
  exact (proj1 (X4_letter_case_of_keys_is_ignored other_case sys_report_A
                  sys_report_A_other_case "127.0.0.1" "5201" report_A
                  report_A_other_case v (300 * Second) Sampler_new
                  other_case_folds eq_refl eq_refl Hp Hp')).
Defined.

(** X5. With a server label that is valid UTF-8, whatever the passes,
    none of the five vectors ever holds a gauge for a label value other
    than the configured server. *)
Theorem X5_gauges_for_the_server_only
  (server port : string) (execInterval : Duration) (syss : list System) :
  utf8_ValidString server = true ->
  exists s,
    loop server port execInterval syss Sampler_new = Some s
    /\ forall c lv, lv <> server -> vec_of (metrics s) c !! lv = None.
Proof.
  intros Hv.
  destruct (loop_total server port execInterval Hv syss Sampler_new) as [s Hs].
  exists s. split; [exact Hs |]. intros c lv Hne.
  apply (small_lookup_ne server); [| exact Hne].
  exact (loop_all_small server port execInterval Hv syss _ s
           (all_small_new server) Hs c).
Qed.

Lemma X5_gauges_for_the_server_only_witness :
  utf8_ValidString "127.0.0.1" = true
  /\ exists s,
       loop "127.0.0.1" "5201" (300 * Second) [sys_exit_1; sys_report_A] Sampler_new
       = Some s
       /\ errorCount (metrics s) !! "10.0.0.1" = None
       /\ sentBitPerSec (metrics s) !! "10.0.0.1" = None.
Proof.
  split; [reflexivity |].
  destruct (X5_gauges_for_the_server_only "127.0.0.1" "5201" (300 * Second)
              [sys_exit_1; sys_report_A] eq_refl) as (s & Hs & H).
  exists s. split; [exact Hs |]. split.
  - apply (H c_errorCount "10.0.0.1"). discriminate.
  - apply (H c_sentBitPerSec "10.0.0.1"). discriminate.
Defined.

(** X6. With a server label that is valid UTF-8, what the page of
    [/metrics] shows of the program's own metric families is what the last
    pass left, and nothing of the passes before it: no sample at all when
    the last measurement failed, and otherwise exactly the four samples of
    the last report, for the server, in the order of their names.  The page
    holds these next to the samples [others] of the collectors that the
    default registry brings along, and nothing else. *)
Theorem X6_scrape_shows_the_last_pass_only
  (server port : string) (execInterval : Duration)
  (syss : list System) (sys : System) (others : list Sample) :
  utf8_ValidString server = true ->
  exists s,
    loop server port execInterval (syss ++ [sys])%list Sampler_new = Some s
    /\ scrape (metrics s)
       = match fst (ExecIPerf3 sys server port) with
         | Some r => report_scrape server r
         | None => []
         end
    /\ forall x,
         In x (metrics_page others (metrics s))
         <-> In x others
             \/ In x match fst (ExecIPerf3 sys server port) with
                     | Some r => report_scrape server r
                     | None => []
                     end.
Proof.
  intros Hv.
  destruct (loop_total server port execInterval Hv syss Sampler_new) as [s0 Hs0].
  pose proof (loop_all_small server port execInterval Hv syss _ s0
                (all_small_new server) Hs0) as Hsmall.
  rewrite (loop_snoc server port execInterval syss sys _ s0 Hs0).
  assert (Hpage : forall m x,
             In x (metrics_page others m) <-> In x others \/ In x (scrape m)).
  { intros m x. unfold metrics_page, scrape. rewrite !In_Gather. cbn [In]. tauto. }
  destruct (ExecIPerf3_shape sys server port) as [[e He] | [r Hr]].
  - rewrite (pass_of_error server port execInterval Hv sys s0 e He), He.
    exists (after_error server e s0). split; [reflexivity |].
    cbn [fst]. split; [apply scrape_after_error |].
    intros x. now rewrite Hpage, scrape_after_error.
  - rewrite (pass_of_result server port execInterval Hv sys s0 r Hr), Hr.
    exists (after_result server r s0). split; [reflexivity |].
    cbn [fst]. split; [now apply scrape_small_after_result |].
    intros x. now rewrite Hpage, (scrape_small_after_result server r s0 Hsmall).
Qed.

Lemma X6_scrape_shows_the_last_pass_only_witness :
  utf8_ValidString "127.0.0.1" = true
  /\ exists s,
       loop "127.0.0.1" "5201" (300 * Second)
         ([sys_report_A; sys_exit_1] ++ [sys_report_B])%list Sampler_new = Some s
       /\ scrape (metrics s) = report_scrape "127.0.0.1" result_B
       /\ In ("go_goroutines", "", of_Z 9) (metrics_page other_samples (metrics s))
       /\ In (fqName c_sentBitPerSec, "127.0.0.1", BitsPerSecond (SumSent (End result_B)))
            (metrics_page other_samples (metrics s)).
Proof.
  split; [reflexivity |].
  destruct (X6_scrape_shows_the_last_pass_only "127.0.0.1" "5201" (300 * Second)
              [sys_report_A; sys_exit_1] sys_report_B other_samples eq_refl)
    as (s & Hs & Hsc & Hpage).
  assert (Hr : fst (ExecIPerf3 sys_report_B "127.0.0.1" "5201") = Some result_B)
    by (vm_compute; reflexivity).
  rewrite Hr in Hsc, Hpage.
  exists s. split; [exact Hs |]. split; [exact Hsc |]. split.
  - apply Hpage. left. left. reflexivity.
  - apply Hpage. right. right. right. left. reflexivity.
Defined.

(** X7. With a server label that is valid UTF-8, the log holds one line
    for each failed measurement and none for a successful one: read from
    the oldest line on, its errors are the errors that the passes ran into,
    in their order. *)
Theorem X7_log_lists_the_errors_in_order
  (server port : string) (execInterval : Duration) (syss : list System) :
  utf8_ValidString server = true ->
  exists s,
    loop server port execInterval syss Sampler_new = Some s
    /\ rev (logged s)
       = map (pair "[ERROR] execute iperf3 with error:") (errors_of server port syss).
Proof.
  intros Hv.
  destruct (loop_total server port execInterval Hv syss Sampler_new) as [s Hs].
  exists s. split; [exact Hs |].
  rewrite (loop_logged server port execInterval Hv syss _ s Hs).
  cbn [logged Sampler_new]. now rewrite app_nil_r, rev_involutive.
Qed.

Lemma X7_log_lists_the_errors_in_order_witness :
  utf8_ValidString "127.0.0.1" = true
  /\ exists s,
       loop "127.0.0.1" "5201" (300 * Second)
         [sys_exit_1; sys_report_A; sys_unable_to_connect] Sampler_new = Some s
       /\ rev (logged s)
          = [("[ERROR] execute iperf3 with error:", exec_ExitError (exited 1));
             ("[ERROR] execute iperf3 with error:",
              errors_New "unable to connect to server")].
Proof.
  split; [reflexivity |].
  destruct (X7_log_lists_the_errors_in_order "127.0.0.1" "5201" (300 * Second)
              [sys_exit_1; sys_report_A; sys_unable_to_connect] eq_refl)
    as (s & Hs & Hl).
  exists s. split; [exact Hs |]. rewrite Hl. vm_compute. reflexivity.
Defined.

(** X8. With a server label that is valid UTF-8, every value that a
    scrape shows of the program's gauges is a finite number: neither a NaN
    nor an infinity is ever published. *)
Theorem X8_published_values_are_finite
  (server port : string) (execInterval : Duration) (syss : list System) :
  utf8_ValidString server = true ->
  exists s,
    loop server port execInterval syss Sampler_new = Some s
    /\ forall name lv v, In (name, lv, v) (scrape (metrics s)) -> is_finite v = true.
Proof.
  intros Hvalid.
  destruct (loop_gauges server port execInterval Hvalid syss) as (s & Hs & Inv).
  exists s. split; [exact Hs |]. intros name lv v Hin.
  apply scrape_spec in Hin as (c & Hc & -> & Hv).
  destruct (Inv lv) as [(A1 & A2 & A3 & A4) | (sys & r & _ & Hr & Hg)].
  - unfold registered in Hc. cbn in Hc.
    destruct Hc as [<- | [<- | [<- | [<- | []]]]]; cbn in Hv; congruence.
  - destruct (ExecIPerf3_finite sys server port r Hr) as (F1 & F2 & F3 & F4).
    unfold gauges, published in Hg.
    destruct (sentBitPerSec (metrics s) !! lv) as [a |] eqn:E1; [| discriminate].
    destruct (sentRetransmits (metrics s) !! lv) as [b |] eqn:E2; [| discriminate].
    destruct (receivedBitPerSec (metrics s) !! lv) as [c' |] eqn:E3; [| discriminate].
    destruct (receivedRetransmits (metrics s) !! lv) as [d |] eqn:E4; [| discriminate].
    injection Hg as -> -> -> ->.
    unfold registered in Hc. cbn in Hc.
    destruct Hc as [<- | [<- | [<- | [<- | []]]]]; cbn in Hv; congruence.
Qed.

Lemma X8_published_values_are_finite_witness :
  utf8_ValidString "127.0.0.1" = true
  /\ exists s,
       loop "127.0.0.1" "5201" (300 * Second) [sys_report_A] Sampler_new = Some s
       /\ In (fqName c_sentBitPerSec, "127.0.0.1", of_Z 1000000) (scrape (metrics s))
       /\ is_finite (of_Z 1000000) = true.
Proof.
  split; [reflexivity |].
  destruct (X8_published_values_are_finite "127.0.0.1" "5201" (300 * Second)
              [sys_report_A] eq_refl) as (s & Hs & H).
  exists s. split; [exact Hs |].
  assert (Hin : In (fqName c_sentBitPerSec, "127.0.0.1", of_Z 1000000)
                  (scrape (metrics s))).
  { vm_compute in Hs. injection Hs as <-. vm_compute. right. right. left. reflexivity. }
  split; [exact Hin | exact (H _ _ _ Hin)].
Defined.

(** X9. With a server label that is valid UTF-8, while it makes its
    passes the loop asks for ten seconds of sleep after each failed
    measurement and for the configured interval after each successful one;
    an interval that is zero or negative gives no sleep at all. *)
Theorem X9_time_asleep
  (server port : string) (execInterval : Duration)
  (syss : list System) (s : Sampler) :
  utf8_ValidString server = true ->
  slept server port execInterval syss s
  = 10 * Second * Z.of_nat (failures server port syss)
    + Z.max 0 execInterval
      * (Z.of_nat (length syss) - Z.of_nat (failures server port syss)).
Proof. intros Hv. now apply slept_spec. Qed.

Lemma X9_time_asleep_witness :
  utf8_ValidString "127.0.0.1" = true
  /\ slept "127.0.0.1" "5201" (300 * Second)
       [sys_exit_1; sys_report_A; sys_report_B] Sampler_new
     = 610 * Second
  /\ slept "127.0.0.1" "5201" (-1) [sys_exit_1; sys_report_A; sys_report_B] Sampler_new
     = 10 * Second.
Proof.
  split; [reflexivity |]. split.
  - rewrite (X9_time_asleep "127.0.0.1" "5201" (300 * Second)
               [sys_exit_1; sys_report_A; sys_report_B] Sampler_new eq_refl).
    vm_compute. reflexivity.
  - rewrite (X9_time_asleep "127.0.0.1" "5201" (-1)
               [sys_exit_1; sys_report_A; sys_report_B] Sampler_new eq_refl).
    vm_compute. reflexivity.
Defined.

(** X10. With a server label that is valid UTF-8, the error gauge stops
    counting at [2^53]: once it holds that number, no pass changes it,
    however many measurements fail. *)
Theorem X10_error_gauge_stops_at_2p53
  (server port : string) (execInterval : Duration)
  (syss : list System) (s : Sampler) :
  utf8_ValidString server = true ->
  errorCount (metrics s) !! server = Some (of_Z (2 ^ 53)) ->
  exists s',
    loop server port execInterval syss s = Some s'
    /\ errorCount (metrics s') !! server = Some (of_Z (2 ^ 53)).
Proof.
  intros Hv Hs.
  destruct (loop_total server port execInterval Hv syss s) as [s' Hs'].
  exists s'. split; [exact Hs' |].
  exact (loop_saturated server port execInterval Hv syss s s' Hs Hs').
Qed.

Lemma X10_error_gauge_stops_at_2p53_witness :
  utf8_ValidString "127.0.0.1" = true
  /\ errorCount (metrics Sampler_saturated) !! "127.0.0.1" = Some (of_Z (2 ^ 53))
  /\ exists s',
       loop "127.0.0.1" "5201" (300 * Second) [sys_exit_1; sys_exit_3]
         Sampler_saturated = Some s'
       /\ errorCount (metrics s') !! "127.0.0.1" = Some (of_Z (2 ^ 53)).
Proof.
  split; [reflexivity |]. split; [reflexivity |].
  apply (X10_error_gauge_stops_at_2p53 "127.0.0.1" "5201" (300 * Second)
           [sys_exit_1; sys_exit_3] Sampler_saturated); reflexivity.
Defined.
